(** * go-pcie-tlp-cli: the command line front end of the PCIe TLP codec

    A shallow embedding of [pcie-tlp-cli/pcie-tlp-cli.go]: the Format/Type
    constant table, [try_decode] and [main], over an interface [PcieLib] that
    stands for the imported package [go-pcie-tlp/pcie].  The package itself is
    not part of the command line tool's sources; [Module pcie] gives the
    reading of it that the specification describes. *)

From Stdlib Require Import ZArith List String Ascii Bool Lia.
Import ListNotations.

Local Open Scope string_scope.
Local Open Scope Z_scope.

Set Implicit Arguments.

(** ** Go values *)

(** A Go [byte]/[uint8], [uint16], [uint32], [uint64] or [int] is a [Z]; the
    conversions below write the wrap-around out. *)
Definition byte := Z.

Definition uint8 (v : Z) : Z := v mod 2 ^ 8.
Definition uint16 (v : Z) : Z := v mod 2 ^ 16.
Definition uint32 (v : Z) : Z := v mod 2 ^ 32.

(** Go's [(value, error)] pair of a fallible call. *)
Inductive result (E A : Type) : Type :=
| Ok (a : A)
| Err (e : E).

Arguments Ok {E A} a.
Arguments Err {E A} e.

(** String concatenation, Go's [+] on strings. *)
Local Infix "+++" := String.append (right associativity, at level 60).

(** The line feed, Go's ["\n"]. *)
Definition nl : string := String (ascii_of_nat 10) EmptyString.

(** A binary literal of the source, [0b010] written [bin "010"]. *)
Fixpoint bin_from (acc : Z) (s : string) : Z :=
  match s with
  | EmptyString => acc
  | String c r => bin_from (2 * acc + (if Ascii.eqb c "1" then 1 else 0)) r
  end.

Definition bin (s : string) : Z := bin_from 0 s.

(** ** The parts of Go's standard library the tool calls *)

Definition hextable : string := "0123456789abcdef".

Definition hexdigit (n : Z) : ascii :=
  match String.get (Z.to_nat n) hextable with
  | Some c => c
  | None => "0"%char
  end.

(** [fromHexChar] of encoding/hex: the value of a hexadecimal digit of either
    case. *)
Definition fromHexChar (c : ascii) : option Z :=
  let n := Z.of_nat (nat_of_ascii c) in
  if (48 <=? n) && (n <=? 57) then Some (n - 48)
  else if (97 <=? n) && (n <=? 102) then Some (n - 97 + 10)
  else if (65 <=? n) && (n <=? 70) then Some (n - 65 + 10)
  else None.

Module hex.

Inductive error : Type :=
| ErrLength
| InvalidByteError (c : ascii).

(** [hex.EncodeToString]: two lower-case digits per byte. *)
Fixpoint EncodeToString (src : list byte) : string :=
  match src with
  | [] => ""
  | v :: rest =>
      String (hexdigit (Z.shiftr v 4))
        (String (hexdigit (Z.land v 15)) (EncodeToString rest))
  end.

(** [hex.DecodeString]: pairs of digits, left to right; an odd tail is an
    invalid byte if it is no digit and a length error otherwise. *)
Fixpoint DecodeString (s : string) : result error (list byte) :=
  match s with
  | EmptyString => Ok []
  | String p EmptyString =>
      match fromHexChar p with
      | None => Err (InvalidByteError p)
      | Some _ => Err ErrLength
      end
  | String p (String q rest) =>
      match fromHexChar p with
      | None => Err (InvalidByteError p)
      | Some a =>
          match fromHexChar q with
          | None => Err (InvalidByteError q)
          | Some b =>
              match DecodeString rest with
              | Ok l => Ok (Z.lor (Z.shiftl a 4) b :: l)
              | Err e => Err e
              end
          end
      end
  end.

End hex.

Module strings.

(** [strings.ReplaceAll(s, " ", "")], the only use the tool makes of it. *)
Fixpoint RemoveSpaces (s : string) : string :=
  match s with
  | EmptyString => EmptyString
  | String c r =>
      if Ascii.eqb c " " then RemoveSpaces r else String c (RemoveSpaces r)
  end.

End strings.

Module strconv.

Inductive error : Type :=
| ErrSyntax
| ErrRange.

(** The digit loop of [strconv.ParseUint(s, 16, 64)]: a character that is no
    hexadecimal digit is a syntax error, a value that reached the cutoff
    [2^64 / 16] before the next digit is a range error. *)
Fixpoint digits16 (n : Z) (s : string) : result error Z :=
  match s with
  | EmptyString => Ok n
  | String c r =>
      match fromHexChar c with
      | None => Err ErrSyntax
      | Some d => if 2 ^ 60 <=? n then Err ErrRange else digits16 (n * 16 + d) r
      end
  end.

Definition ParseUint16_64 (s : string) : result error Z :=
  match s with
  | EmptyString => Err ErrSyntax
  | _ => digits16 0 s
  end.

End strconv.

Module fmt.

(** The digits of [v] in base 16, most significant first, at least one. *)
Fixpoint hexdigits (fuel : nat) (v : Z) (acc : string) : string :=
  match fuel with
  | O => acc
  | S f =>
      let acc' := String (hexdigit (v mod 16)) acc in
      if v / 16 =? 0 then acc' else hexdigits f (v / 16) acc'
  end.

Fixpoint zeros (n : nat) : string :=
  match n with
  | O => ""
  | S m => String "0" (zeros m)
  end.

(** The verb [%0<w>x] on an unsigned integer of at most 64 bits. *)
Definition x0 (w : nat) (v : Z) : string :=
  let d := hexdigits 16 v "" in
  zeros (w - String.length d) +++ d.

(** The verb [% x] on an unsigned integer: a space where the sign would
    stand, then the digits. *)
Definition space_x (v : Z) : string := " " +++ hexdigits 16 v "".

End fmt.

(** ** The Format/Type table (lines 14-74) *)

Definition fmt3DWNoData : Z := bin "000".
Definition fmt4DWNoData : Z := bin "001".
Definition fmt3DWWithData : Z := bin "010".
Definition fmt4DWWithData : Z := bin "011".
Definition fmtTlpPrefix : Z := bin "100".

(** [TlpType] is the format and type field in the TLP header, a [uint8]. *)
Definition TlpType := Z.

(** The constant expression [(format << 5) | type] of every entry. *)
Definition fmt_type (format type : Z) : TlpType := Z.lor (Z.shiftl format 5) type.

Definition MRd3 : TlpType := fmt_type fmt3DWNoData (bin "00000").
Definition MRd4 : TlpType := fmt_type fmt4DWNoData (bin "00000").
Definition MRdLk3 : TlpType := fmt_type fmt3DWNoData (bin "00001").
Definition MRdLk4 : TlpType := fmt_type fmt4DWNoData (bin "00001").
Definition MWr3 : TlpType := fmt_type fmt3DWWithData (bin "00000").
Definition MWr4 : TlpType := fmt_type fmt4DWWithData (bin "00000").
Definition IORdT : TlpType := fmt_type fmt3DWNoData (bin "00010").
Definition IOWrtT : TlpType := fmt_type fmt3DWWithData (bin "00010").
Definition CfgRd0 : TlpType := fmt_type fmt3DWNoData (bin "00100").
Definition CfgWr0 : TlpType := fmt_type fmt3DWWithData (bin "00100").
Definition CfgRd1 : TlpType := fmt_type fmt3DWNoData (bin "00101").
Definition CfgWr1 : TlpType := fmt_type fmt3DWWithData (bin "00101").
Definition CplE : TlpType := fmt_type fmt3DWNoData (bin "01010").
Definition CplD : TlpType := fmt_type fmt3DWWithData (bin "01010").
Definition CplLk : TlpType := fmt_type fmt3DWNoData (bin "01011").
Definition CplLkD : TlpType := fmt_type fmt3DWWithData (bin "01011").
Definition MRIOV : TlpType := fmt_type fmtTlpPrefix (bin "00000").
Definition LocalVendPrefix : TlpType := fmt_type fmtTlpPrefix (bin "01110").
Definition ExtTPH : TlpType := fmt_type fmtTlpPrefix (bin "10000").
Definition PASID : TlpType := fmt_type fmtTlpPrefix (bin "10001").
Definition EndEndVendPrefix : TlpType := fmt_type fmtTlpPrefix (bin "11110").

(** One row of the table: the constant's name, its value, and the format and
    type the source builds it from. *)
Record TlpTypeRow : Type := {
  row_name : string;
  row_value : TlpType;
  row_format : Z;
  row_type : Z
}.

Definition TlpType_table : list TlpTypeRow :=
  [ Build_TlpTypeRow "MRd3" MRd3 fmt3DWNoData (bin "00000");
    Build_TlpTypeRow "MRd4" MRd4 fmt4DWNoData (bin "00000");
    Build_TlpTypeRow "MRdLk3" MRdLk3 fmt3DWNoData (bin "00001");
    Build_TlpTypeRow "MRdLk4" MRdLk4 fmt4DWNoData (bin "00001");
    Build_TlpTypeRow "MWr3" MWr3 fmt3DWWithData (bin "00000");
    Build_TlpTypeRow "MWr4" MWr4 fmt4DWWithData (bin "00000");
    Build_TlpTypeRow "IORdT" IORdT fmt3DWNoData (bin "00010");
    Build_TlpTypeRow "IOWrtT" IOWrtT fmt3DWWithData (bin "00010");
    Build_TlpTypeRow "CfgRd0" CfgRd0 fmt3DWNoData (bin "00100");
    Build_TlpTypeRow "CfgWr0" CfgWr0 fmt3DWWithData (bin "00100");
    Build_TlpTypeRow "CfgRd1" CfgRd1 fmt3DWNoData (bin "00101");
    Build_TlpTypeRow "CfgWr1" CfgWr1 fmt3DWWithData (bin "00101");
    Build_TlpTypeRow "CplE" CplE fmt3DWNoData (bin "01010");
    Build_TlpTypeRow "CplD" CplD fmt3DWWithData (bin "01010");
    Build_TlpTypeRow "CplLk" CplLk fmt3DWNoData (bin "01011");
    Build_TlpTypeRow "CplLkD" CplLkD fmt3DWWithData (bin "01011");
    Build_TlpTypeRow "MRIOV" MRIOV fmtTlpPrefix (bin "00000");
    Build_TlpTypeRow "LocalVendPrefix" LocalVendPrefix fmtTlpPrefix (bin "01110");
    Build_TlpTypeRow "ExtTPH" ExtTPH fmtTlpPrefix (bin "10000");
    Build_TlpTypeRow "PASID" PASID fmtTlpPrefix (bin "10001");
    Build_TlpTypeRow "EndEndVendPrefix" EndEndVendPrefix fmtTlpPrefix (bin "11110") ].

(** [printfmttypes] (lines 76-98): one [Printf] per constant, with the format
    ["<name> % x\n"]. *)
Definition printfmttypes : list string :=
  map (fun r => row_name r +++ " " +++ fmt.space_x (row_value r) +++ nl) TlpType_table.

(** ** The imported package, as the tool sees it *)

(** What [pcie-tlp-cli.go] uses of the package [pcie]: four types, the zero
    [DeviceID] of [var did pcie.DeviceID], and the constructors, decoders and
    serialisers it calls.  A [pcie] error is the text its [Error()] gives. *)
Class PcieLib : Type := {
  DeviceID : Type;
  MRd : Type;
  MWr : Type;
  Cpl : Type;
  DeviceID_zero : DeviceID;
  DeviceID_FromString : string -> result string DeviceID;
  DeviceID_ToUint16 : DeviceID -> Z;
  NewMRd : DeviceID -> Z -> Z -> Z -> result string MRd;
  NewMWr : DeviceID -> Z -> list byte -> result string MWr;
  NewMRdFromBytes : list byte -> result string MRd;
  NewMWrFromBytes : list byte -> result string MWr;
  NewCplFromBytes : list byte -> result string Cpl;
  MRd_ToBytes : MRd -> list byte;
  MWr_ToBytes : MWr -> list byte;
  Cpl_ToBytes : Cpl -> list byte
}.

(** ** Running the tool: standard output, panics and the calls made *)

(** The value a [panic] carries: a string or one of the errors. *)
Inductive panic_value : Type :=
| PanicString (s : string)
| PanicHex (e : hex.error)
| PanicStrconv (e : strconv.error)
| PanicPcie (e : string).

(** What a run has done so far: the strings written to standard output, in
    order, and (a ghost field) the package functions called, in order. *)
Record world : Type := {
  stdout : list string;
  calls : list string
}.

Definition world0 : world := {| stdout := []; calls := [] |}.

(** A computation that may panic, over the [world]. *)
Definition M (A : Type) : Type := world -> result panic_value A * world.

Definition ret {A : Type} (a : A) : M A := fun w => (Ok a, w).

Definition bind {A B : Type} (m : M A) (k : A -> M B) : M B :=
  fun w =>
    match m w with
    | (Ok a, w') => k a w'
    | (Err p, w') => (Err p, w')
    end.

Notation "x <- m ;; k" := (bind m (fun x => k))
  (at level 61, m at next level, right associativity).
Notation "m ;;; k" := (bind m (fun _ => k))
  (at level 61, right associativity).

Definition panic {A : Type} (p : panic_value) : M A := fun w => (Err p, w).

(** [fmt.Print] and [fmt.Printf]: one more string on standard output. *)
Definition Print (s : string) : M unit :=
  fun w => (Ok tt, {| stdout := stdout w ++ [s]; calls := calls w |}).

(** [fmt.Println]. *)
Definition Println (s : string) : M unit := Print (s +++ nl).

(** Ghost: records that a function of the package is entered. *)
Definition call (name : string) : M unit :=
  fun w => (Ok tt, {| stdout := stdout w; calls := calls w ++ [name] |}).

(** [v, err := f(...); if err != nil { panic(err) }]. *)
Definition or_panic {E A : Type} (wrap : E -> panic_value) (r : result E A) : M A :=
  match r with
  | Ok a => ret a
  | Err e => panic (wrap e)
  end.

(** The flags of the command line after [parser.Parse] has accepted them;
    an absent string flag is the empty string, an absent number is 0. *)
Module Args.

Record t : Type := {
  encode : bool;
  printtypes : bool;
  tlp_raw_bytes_str : string;
  data_raw_bytes_str : string;
  tlp_type : string;
  device_id_str : string;
  tag : Z;
  addr_str : string;
  length : Z
}.

End Args.

Section Cli.

Context {lib : PcieLib}.

(** *** [try_decode] (lines 210-248) *)

(** The last loop: every collected error on a line of its own. *)
Fixpoint print_errs (errs : list string) : M unit :=
  match errs with
  | [] => ret tt
  | err :: rest => Println err ;;; print_errs rest
  end.

(** The [for _, t := range types] loop with the [errs] collected so far.  A
    decoder that succeeds prints its packet and returns; one that fails
    appends its wrapped error and continues; a [t] the [switch] has no case
    for falls through to the next iteration. *)
Fixpoint try_decode_loop (errs : list string) (tlp_raw_bytes : list byte)
    (types : list string) : M unit :=
  match types with
  | [] => print_errs errs
  | t :: rest =>
      if String.eqb t "MEMRD" then
        call "NewMRdFromBytes" ;;;
        match NewMRdFromBytes tlp_raw_bytes with
        | Err err => try_decode_loop (errs ++ ["MEMRD: " +++ err]) tlp_raw_bytes rest
        | Ok tlp =>
            call "MRd.ToBytes" ;;;
            Print ("Valid MEMRD Packet:" +++ hex.EncodeToString (MRd_ToBytes tlp) +++ nl)
        end
      else if String.eqb t "MEMWR" then
        call "NewMWrFromBytes" ;;;
        match NewMWrFromBytes tlp_raw_bytes with
        | Err err => try_decode_loop (errs ++ ["MEMWR: " +++ err]) tlp_raw_bytes rest
        | Ok tlp =>
            call "MWr.ToBytes" ;;;
            Print ("Valid MEMWR Packet:" +++ hex.EncodeToString (MWr_ToBytes tlp) +++ nl)
        end
      else if String.eqb t "CPL" then
        call "NewCplFromBytes" ;;;
        match NewCplFromBytes tlp_raw_bytes with
        | Err err => try_decode_loop (errs ++ ["CPL: " +++ err]) tlp_raw_bytes rest
        | Ok tlp =>
            call "Cpl.ToBytes" ;;;
            Print ("Valid CPL Packet:" +++ hex.EncodeToString (Cpl_ToBytes tlp) +++ nl)
        end
      else try_decode_loop errs tlp_raw_bytes rest
  end.

Definition try_decode (tlp_raw_bytes : list byte) (types : list string) : M unit :=
  try_decode_loop [] tlp_raw_bytes types.

(** *** [main] (lines 100-208), from the parsed command line on *)

Definition all_tlp_types : list string := ["MEMRD"; "MEMWR"; "CPL"; "CFGWR"].

(** The variables [main] declares before it reads the arguments. *)
Record locals : Type := {
  tlp_raw_bytes : list byte;
  data_raw_bytes : list byte;
  addr : Z;
  did : DeviceID
}.

Definition locals0 : locals :=
  {| tlp_raw_bytes := []; data_raw_bytes := []; addr := 0; did := DeviceID_zero |}.

(** [case "MEMRD"] of the first [switch] (lines 151-160), which
    [case "MEMWR"] falls through to. *)
Definition parse_MEMRD (a : Args.t) (l : locals) : M locals :=
  call "DeviceID.FromString" ;;;
  d <- or_panic PanicPcie (DeviceID_FromString (Args.device_id_str a)) ;;
  v <- or_panic PanicStrconv (strconv.ParseUint16_64 (Args.addr_str a)) ;;
  ret {| tlp_raw_bytes := tlp_raw_bytes l; data_raw_bytes := data_raw_bytes l;
         addr := v; did := d |}.

(** "Parse req args" (lines 139-174). *)
Definition parse_req_args (a : Args.t) (l : locals) : M locals :=
  if Args.encode a then
    if String.eqb (Args.tlp_type a) "MEMWR" then
      let spaceless_data_raw_bytes_str := strings.RemoveSpaces (Args.data_raw_bytes_str a) in
      data <- or_panic PanicHex (hex.DecodeString spaceless_data_raw_bytes_str) ;;
      parse_MEMRD a {| tlp_raw_bytes := tlp_raw_bytes l; data_raw_bytes := data;
                       addr := addr l; did := did l |}
    else if String.eqb (Args.tlp_type a) "MEMRD" then
      parse_MEMRD a l
    else panic (PanicString "Unsupported type specified")
  else
    Print ("Parsing Decode Args" +++ nl) ;;;
    let spaceless_tlp_raw_bytes_str := strings.RemoveSpaces (Args.tlp_raw_bytes_str a) in
    raw <- or_panic PanicHex (hex.DecodeString spaceless_tlp_raw_bytes_str) ;;
    ret {| tlp_raw_bytes := raw; data_raw_bytes := data_raw_bytes l;
           addr := addr l; did := did l |}.

(** "Dispatch into encoders/creators" and "Dispatch into parsers"
    (lines 176-207). *)
Definition dispatch (a : Args.t) (l : locals) : M unit :=
  if Args.encode a then
    if String.eqb (Args.tlp_type a) "MEMRD" then
      call "NewMRd" ;;;
      tlp <- or_panic PanicPcie
               (NewMRd (did l) (uint8 (Args.tag a)) (addr l) (uint32 (Args.length a))) ;;
      call "MRd.ToBytes" ;;;
      Print (hex.EncodeToString (MRd_ToBytes tlp))
    else if String.eqb (Args.tlp_type a) "MEMWR" then
      call "NewMWr" ;;;
      tlp <- or_panic PanicPcie (NewMWr (did l) (addr l) (data_raw_bytes l)) ;;
      call "DeviceID.ToUint16" ;;;
      Print ("Did: 0x" +++ fmt.x0 4 (DeviceID_ToUint16 (did l)) +++ nl) ;;;
      Print ("tag: 0x" +++ fmt.x0 2 (uint8 (Args.tag a)) +++ nl) ;;;
      call "MWr.ToBytes" ;;;
      Print (hex.EncodeToString (MWr_ToBytes tlp)) ;;;
      Print (nl +++ "MWr3 as uint8==>" +++ fmt.x0 2 (uint8 MWr3) +++ nl) ;;;
      Print (nl +++ "MWr4 as uint8==>" +++ fmt.x0 2 (uint8 MWr4) +++ nl)
    else panic (PanicString "Unsupported type specified")
  else
    if String.eqb (Args.tlp_type a) "" then
      try_decode (tlp_raw_bytes l) all_tlp_types
    else
      try_decode (tlp_raw_bytes l) [Args.tlp_type a].

(** The [printtypes] branch (lines 127-130). *)
Fixpoint print_all (lines : list string) : M unit :=
  match lines with
  | [] => ret tt
  | s :: rest => Print s ;;; print_all rest
  end.

Definition main (a : Args.t) : M unit :=
  if Args.printtypes a then print_all printfmttypes
  else
    l <- parse_req_args a locals0 ;;
    dispatch a l.

(** What the [switch] of [try_decode] does with one candidate, for
    statements: [None] when it has no case for [t], else the decoder's error
    or the re-encoded packet. *)
Definition attempt (tlp_raw_bytes : list byte) (t : string)
    : option (result string (list byte)) :=
  if String.eqb t "MEMRD" then
    Some match NewMRdFromBytes tlp_raw_bytes with
         | Ok tlp => Ok (MRd_ToBytes tlp)
         | Err e => Err e
         end
  else if String.eqb t "MEMWR" then
    Some match NewMWrFromBytes tlp_raw_bytes with
         | Ok tlp => Ok (MWr_ToBytes tlp)
         | Err e => Err e
         end
  else if String.eqb t "CPL" then
    Some match NewCplFromBytes tlp_raw_bytes with
         | Ok tlp => Ok (Cpl_ToBytes tlp)
         | Err e => Err e
         end
  else None.

(** The call the [switch] makes to decode as [t]: none without a case. *)
Definition decoder_call (t : string) : list string :=
  if String.eqb t "MEMRD" then ["NewMRdFromBytes"]
  else if String.eqb t "MEMWR" then ["NewMWrFromBytes"]
  else if String.eqb t "CPL" then ["NewCplFromBytes"]
  else [].

(** The call that serialises the packet decoded as [t]. *)
Definition serialiser_call (t : string) : list string :=
  if String.eqb t "MEMRD" then ["MRd.ToBytes"]
  else if String.eqb t "MEMWR" then ["MWr.ToBytes"]
  else if String.eqb t "CPL" then ["Cpl.ToBytes"]
  else [].

(** The error [try_decode] collects for candidate [t]: its decoder's,
    wrapped with the candidate's name; none when the decoder succeeds or
    the [switch] has no case for [t]. *)
Definition error_of (tlp_raw_bytes : list byte) (t : string) : list string :=
  match attempt tlp_raw_bytes t with
  | Some (Err e) => [t +++ ": " +++ e]
  | _ => []
  end.

(** The line [fmt.Println] writes for an error. *)
Definition error_line (err : string) : string := err +++ nl.

(** The line [try_decode] writes for a packet decoded as [t]. *)
Definition valid_line (t : string) (packet : list byte) : string :=
  "Valid " +++ t +++ " Packet:" +++ hex.EncodeToString packet +++ nl.

End Cli.

(** ** The package [pcie], read from the specification *)

Module pcie.

(** Modelled from the spec: the errors of the package, by the names of the
    error taxonomy (section 7), as error texts. *)
Definition MalformedHeader : string := "MalformedHeader".
Definition TruncatedBuffer : string := "TruncatedBuffer".
Definition LengthMismatch : string := "LengthMismatch".
Definition InvalidAddress : string := "InvalidAddress".
Definition InvalidLength : string := "InvalidLength".
Definition InvalidDeviceIDFormat : string := "InvalidDeviceIDFormat".
Definition InvalidCompletionStatus : string := "InvalidCompletionStatus".
Definition UnsupportedType : string := "UnsupportedType".

(** *** Device/Requester ID (sections 3 and 4.2) *)

(** Modelled from the spec: the type [pcie.DeviceID], "triple (bus: 0-255,
    device: 0-31, function: 0-7)". *)
Record DeviceID : Type := {
  Bus : Z;
  Device : Z;
  Function : Z
}.

Definition DeviceID_valid (id : DeviceID) : Prop :=
  0 <= Bus id <= 255 /\ 0 <= Device id <= 31 /\ 0 <= Function id <= 7.

Definition DeviceID_validb (id : DeviceID) : bool :=
  (0 <=? Bus id) && (Bus id <=? 255) && (0 <=? Device id) && (Device id <=? 31)
  && (0 <=? Function id) && (Function id <=? 7).

(** Modelled from the spec: [DeviceID.ToUint16], the operation [pack],
    "packed into 16 bits as bus:8 | device:5 | function:3". *)
Definition ToUint16 (id : DeviceID) : Z :=
  Z.lor (Z.lor (Z.shiftl (Bus id) 8) (Z.shiftl (Device id) 3)) (Function id).

(** Modelled from the spec: the operation [unpack], the "inverse; total
    function" of [pack] on 16-bit values. *)
Definition FromUint16 (w : Z) : DeviceID :=
  {| Bus := Z.shiftr w 8;
     Device := Z.land (Z.shiftr w 3) 31;
     Function := Z.land w 7 |}.

(** The text before and after the first [sep] of [s]; [None] without one. *)
Fixpoint cut (sep : ascii) (s : string) : option (string * string) :=
  match s with
  | EmptyString => None
  | String c r =>
      if Ascii.eqb c sep then Some (EmptyString, r)
      else match cut sep r with
           | Some (a, b) => Some (String c a, b)
           | None => None
           end
  end.

(** A non-empty run of hexadecimal digits as a number. *)
Fixpoint hexrun (n : Z) (s : string) : option Z :=
  match s with
  | EmptyString => Some n
  | String c r =>
      match fromHexChar c with
      | Some d => hexrun (n * 16 + d) r
      | None => None
      end
  end.

Definition hexnum (s : string) : option Z :=
  match s with
  | EmptyString => None
  | _ => hexrun 0 s
  end.

(** Modelled from the spec: [DeviceID.FromString], the operation [parse] of
    "bus:device.function", which "fails with InvalidDeviceIDFormat on
    malformed syntax or out-of-range component".  The three components are
    read as hexadecimal numbers, the convention of the canonical form. *)
Definition FromString (s : string) : result string DeviceID :=
  match cut ":" s with
  | None => Err InvalidDeviceIDFormat
  | Some (bus, rest) =>
      match cut "." rest with
      | None => Err InvalidDeviceIDFormat
      | Some (dev, fn) =>
          match hexnum bus, hexnum dev, hexnum fn with
          | Some b, Some d, Some f =>
              let id := {| Bus := b; Device := d; Function := f |} in
              if DeviceID_validb id then Ok id else Err InvalidDeviceIDFormat
          | _, _, _ => Err InvalidDeviceIDFormat
          end
      end
  end.

(** *** Big-endian fields *)

(** The [n] low bytes of [v], most significant first. *)
Fixpoint be (n : nat) (v : Z) : list byte :=
  match n with
  | O => []
  | S m => Z.land (Z.shiftr v (8 * Z.of_nat m)) 255 :: be m v
  end.

(** The number a run of bytes spells, most significant first. *)
Definition unbe (bs : list byte) : Z :=
  fold_left (fun acc b => Z.lor (Z.shiftl acc 8) b) bs 0.

(** Modelled from the spec: the length in dwords, [ceil(bytes / 4)]. *)
Definition dwords (bytes : Z) : Z := (bytes + 3) / 4.

(** *** Memory Read and Memory Write (section 4.3) *)

(** Modelled from the spec: the type [pcie.MRd]; the common fields of
    section 3 and the target address.  [Length] is in dwords. *)
Record MRd : Type := {
  MRd_ReqID : DeviceID;
  MRd_Tag : Z;
  MRd_Address : Z;
  MRd_Length : Z
}.

(** Modelled from the spec: the type [pcie.MWr]; as [MRd], with the raw
    payload bytes, from which the length field is set. *)
Record MWr : Type := {
  MWr_ReqID : DeviceID;
  MWr_Tag : Z;
  MWr_Address : Z;
  MWr_Data : list byte
}.

(** Modelled from the spec: [pcie.NewMRd].  "Fails with InvalidLength if
    requested length is zero or exceeds the maximum representable transfer
    size (4096 bytes)"; "fails with InvalidAddress if address is non-zero in
    bits above the chosen width", which for a width chosen from the address
    leaves only what 64 bits cannot hold.  The tag argument is not kept:
    "the tag field is always forced to zero regardless of caller input"
    (section 9, and the note of section 3; the README lists it under its
    known bugs), so the packet built has tag zero. *)
Definition NewMRd (reqID : DeviceID) (tag addr length : Z) : result string MRd :=
  if (length =? 0) || (4096 <? length) then Err InvalidLength
  else if (addr <? 0) || (2 ^ 64 <=? addr) then Err InvalidAddress
  else Ok {| MRd_ReqID := reqID; MRd_Tag := 0; MRd_Address := addr;
             MRd_Length := dwords length |}.

(** Modelled from the spec: [pcie.NewMWr], which the tool calls without a
    tag: the tag of the packet is the zero value. *)
Definition NewMWr (reqID : DeviceID) (addr : Z) (data : list byte) : result string MWr :=
  let length := Z.of_nat (List.length data) in
  if (length =? 0) || (4096 <? length) then Err InvalidLength
  else if (addr <? 0) || (2 ^ 64 <=? addr) then Err InvalidAddress
  else Ok {| MWr_ReqID := reqID; MWr_Tag := 0; MWr_Address := addr;
             MWr_Data := data |}.

(** Modelled from the spec: the address-width rule, "an address <=
    0xFFFFFFFF produces the 3-dword format; an address requiring more than
    32 bits produces the 4-dword format". *)
Definition wide (addr : Z) : bool := 0xFFFFFFFF <? addr.

(** Modelled from the spec: the byte enables, "single-dword transfers use
    only first-BE".  Section 9 leaves the masks of transfers that are not
    dword aligned open; this reading enables every byte of a dword. *)
Definition byte_enables (length_dw : Z) : byte :=
  if length_dw =? 1 then 0x0f else 0xff.

(** Modelled from the spec: the header of a memory request (section 6):
    byte 0 is Format | Type, then the length in dwords (10 bits), the
    requester ID, the tag, the byte enables, and the address in 4 or 8
    bytes with its two low bits, which the byte enables stand for, clear. *)
Definition request_header (with_data : bool) (reqID : DeviceID) (tag addr length_dw : Z)
    : list byte :=
  let format :=
    match with_data, wide addr with
    | false, false => fmt3DWNoData
    | false, true => fmt4DWNoData
    | true, false => fmt3DWWithData
    | true, true => fmt4DWWithData
    end in
  [fmt_type format 0; 0] ++ be 2 (Z.land length_dw 1023)
    ++ be 2 (ToUint16 reqID) ++ [Z.land tag 255; byte_enables length_dw]
    ++ be (if wide addr then 8 else 4) (addr - addr mod 4).

(** Modelled from the spec: [MRd.ToBytes]. *)
Definition MRd_ToBytes (tlp : MRd) : list byte :=
  request_header false (MRd_ReqID tlp) (MRd_Tag tlp) (MRd_Address tlp) (MRd_Length tlp).

(** Modelled from the spec: [MWr.ToBytes]; the payload follows the header,
    the length field is [ceil(payload_bytes / 4)]. *)
Definition MWr_ToBytes (tlp : MWr) : list byte :=
  request_header true (MWr_ReqID tlp) (MWr_Tag tlp) (MWr_Address tlp)
    (dwords (Z.of_nat (List.length (MWr_Data tlp))))
  ++ MWr_Data tlp.

(** *** Decoding (sections 4.1, 4.3 and 4.4) *)

(** Modelled from the spec: [classify] of the Header Model, the header
    width and the payload presence the format bits of byte 0 select. *)
Definition header_size (b0 : byte) : nat := if Z.testbit b0 5 then 16%nat else 12%nat.
Definition has_payload (b0 : byte) : bool := Z.testbit b0 6.

(** Modelled from the spec: the length field of the header, the low 10 bits
    of bytes 2 and 3, in dwords. *)
Definition length_field (b : list byte) : Z :=
  Z.land (unbe (firstn 2 (skipn 2 b))) 1023.

(** Modelled from the spec: [pcie.NewMRdFromBytes], the "inverse of
    encode".  "Fails with MalformedHeader if the buffer is shorter than the
    minimum header size for any interpretation (4 bytes)", with
    UnsupportedType on another discriminator, TruncatedBuffer on a header
    cut short and LengthMismatch on bytes after the header of a packet
    without data. *)
Definition NewMRdFromBytes (b : list byte) : result string MRd :=
  if (List.length b <? 4)%nat then Err MalformedHeader
  else
    let b0 := nth 0 b 0 in
    if negb ((b0 =? MRd3) || (b0 =? MRd4)) then Err UnsupportedType
    else if (List.length b <? header_size b0)%nat then Err TruncatedBuffer
    else if (header_size b0 <? List.length b)%nat then Err LengthMismatch
    else Ok {| MRd_ReqID := FromUint16 (unbe (firstn 2 (skipn 4 b)));
               MRd_Tag := nth 6 b 0;
               MRd_Address := unbe (skipn 8 b);
               MRd_Length := length_field b |}.

(** Modelled from the spec: [pcie.NewMWrFromBytes]; as for reads, and it
    "validates that the declared length field matches the actual payload
    length present in the buffer": TruncatedBuffer when the "declared
    length exceeds available bytes", LengthMismatch when the two
    disagree otherwise. *)
Definition NewMWrFromBytes (b : list byte) : result string MWr :=
  if (List.length b <? 4)%nat then Err MalformedHeader
  else
    let b0 := nth 0 b 0 in
    if negb ((b0 =? MWr3) || (b0 =? MWr4)) then Err UnsupportedType
    else if (List.length b <? header_size b0)%nat then Err TruncatedBuffer
    else
      let data := skipn (header_size b0) b in
      let have := dwords (Z.of_nat (List.length data)) in
      if Z.land have 1023 <? length_field b then Err TruncatedBuffer
      else if negb (Z.land have 1023 =? length_field b) then Err LengthMismatch
      else Ok {| MWr_ReqID := FromUint16 (unbe (firstn 2 (skipn 4 b)));
                 MWr_Tag := nth 6 b 0;
                 MWr_Address := unbe (skipn 8 (firstn (header_size b0) b));
                 MWr_Data := data |}.

(** Modelled from the spec: the type [pcie.Cpl] (section 4.4): "completer
    ID, completion status (3-bit code ...), byte count remaining, and
    optional payload", with the requester ID and tag of the request. *)
Record Cpl : Type := {
  Cpl_CplID : DeviceID;
  Cpl_Status : Z;
  Cpl_ByteCount : Z;
  Cpl_ReqID : DeviceID;
  Cpl_Tag : Z;
  Cpl_Data : list byte
}.

(** Modelled from the spec: the defined completion status codes,
    Successful, Unsupported Request, Configuration Request Retry and
    Completer Abort; "reserved codes rejected". *)
Definition status_defined (st : Z) : bool :=
  (st =? 0) || (st =? 1) || (st =? 2) || (st =? 4).

(** Modelled from the spec: [Cpl.ToBytes], a 3-dword header (no address)
    and the payload of the With-Data variant. *)
Definition Cpl_ToBytes (tlp : Cpl) : list byte :=
  [match Cpl_Data tlp with [] => CplE | _ => CplD end; 0]
    ++ be 2 (Z.land (dwords (Z.of_nat (List.length (Cpl_Data tlp)))) 1023)
    ++ be 2 (ToUint16 (Cpl_CplID tlp))
    ++ [Z.lor (Z.shiftl (Cpl_Status tlp) 5) (Z.land (Z.shiftr (Cpl_ByteCount tlp) 8) 15);
        Z.land (Cpl_ByteCount tlp) 255]
    ++ be 2 (ToUint16 (Cpl_ReqID tlp)) ++ [Z.land (Cpl_Tag tlp) 255; 0]
    ++ Cpl_Data tlp.

(** Modelled from the spec: [pcie.NewCplFromBytes].  "Decode validates that
    payload presence matches the with/without-data format bit"; "fails with
    InvalidCompletionStatus on a reserved status code". *)
Definition NewCplFromBytes (b : list byte) : result string Cpl :=
  if (List.length b <? 4)%nat then Err MalformedHeader
  else
    let b0 := nth 0 b 0 in
    if negb ((b0 =? CplE) || (b0 =? CplD)) then Err UnsupportedType
    else if (List.length b <? 12)%nat then Err TruncatedBuffer
    else
      let data := skipn 12 b in
      let have := dwords (Z.of_nat (List.length data)) in
      let st := Z.shiftr (nth 6 b 0) 5 in
      if negb (Bool.eqb (has_payload b0) (negb (Nat.eqb (List.length data) 0)))
      then Err LengthMismatch
      else if Z.land have 1023 <? length_field b then Err TruncatedBuffer
      else if negb (Z.land have 1023 =? length_field b) then Err LengthMismatch
      else if negb (status_defined st) then Err InvalidCompletionStatus
      else Ok {| Cpl_CplID := FromUint16 (unbe (firstn 2 (skipn 4 b)));
                 Cpl_Status := st;
                 Cpl_ByteCount := unbe [Z.land (nth 6 b 0) 15; nth 7 b 0];
                 Cpl_ReqID := FromUint16 (unbe (firstn 2 (skipn 8 b)));
                 Cpl_Tag := nth 10 b 0;
                 Cpl_Data := data |}.

(** Modelled from the spec: the package [pcie] as a whole, behind the
    interface the tool calls it through. *)
Definition lib : PcieLib :=
  @Build_PcieLib DeviceID MRd MWr Cpl
    {| Bus := 0; Device := 0; Function := 0 |}
    FromString ToUint16
    NewMRd NewMWr
    NewMRdFromBytes NewMWrFromBytes NewCplFromBytes
    MRd_ToBytes MWr_ToBytes Cpl_ToBytes.

End pcie.

(** ** The earlier program (package [cli]) *)

(** The [main] of the earlier source file of the tool: the same flags without
    [printtypes], two types to select from, no [default] in its switches, and a
    decode mode that calls the selected decoder itself and panics on its
    error. *)
Module cli.

Section Program.

Context {lib : PcieLib}.

(** "Parse req args": as in the later program, without the [default] case and
    with a banner that does not end its line. *)
Definition parse_req_args (a : Args.t) (l : locals) : M locals :=
  if Args.encode a then
    if String.eqb (Args.tlp_type a) "MEMWR" then
      let spaceless_data_raw_bytes_str := strings.RemoveSpaces (Args.data_raw_bytes_str a) in
      data <- or_panic PanicHex (hex.DecodeString spaceless_data_raw_bytes_str) ;;
      parse_MEMRD a {| tlp_raw_bytes := tlp_raw_bytes l; data_raw_bytes := data;
                       addr := addr l; did := did l |}
    else if String.eqb (Args.tlp_type a) "MEMRD" then
      parse_MEMRD a l
    else ret l
  else
    Print "Parsing Decode Args" ;;;
    let spaceless_tlp_raw_bytes_str := strings.RemoveSpaces (Args.tlp_raw_bytes_str a) in
    raw <- or_panic PanicHex (hex.DecodeString spaceless_tlp_raw_bytes_str) ;;
    ret {| tlp_raw_bytes := raw; data_raw_bytes := data_raw_bytes l;
           addr := addr l; did := did l |}.

(** "Dispatch into encoders/creators" and "Dispatch into parsers". *)
Definition dispatch (a : Args.t) (l : locals) : M unit :=
  if Args.encode a then
    if String.eqb (Args.tlp_type a) "MEMRD" then
      call "NewMRd" ;;;
      tlp <- or_panic PanicPcie
               (NewMRd (did l) (uint8 (Args.tag a)) (addr l) (uint32 (Args.length a))) ;;
      call "MRd.ToBytes" ;;;
      Print (hex.EncodeToString (MRd_ToBytes tlp))
    else if String.eqb (Args.tlp_type a) "MEMWR" then
      call "NewMWr" ;;;
      tlp <- or_panic PanicPcie (NewMWr (did l) (addr l) (data_raw_bytes l)) ;;
      call "DeviceID.ToUint16" ;;;
      Print ("Did: 0x" +++ fmt.x0 4 (DeviceID_ToUint16 (did l)) +++ nl) ;;;
      Print ("tag: 0x" +++ fmt.x0 2 (uint8 (Args.tag a)) +++ nl) ;;;
      call "MWr.ToBytes" ;;;
      Print (hex.EncodeToString (MWr_ToBytes tlp)) ;;;
      Print (nl +++ "MWr3 as uint8==>" +++ fmt.x0 2 (uint8 MWr3) +++ nl) ;;;
      Print (nl +++ "MWr4 as uint8==>" +++ fmt.x0 2 (uint8 MWr4) +++ nl)
    else ret tt
  else
    if String.eqb (Args.tlp_type a) "MEMRD" then
      call "NewMRdFromBytes" ;;;
      tlp <- or_panic PanicPcie (NewMRdFromBytes (tlp_raw_bytes l)) ;;
      call "MRd.ToBytes" ;;;
      Print (hex.EncodeToString (MRd_ToBytes tlp))
    else if String.eqb (Args.tlp_type a) "MEMWR" then
      call "NewMWrFromBytes" ;;;
      tlp <- or_panic PanicPcie (NewMWrFromBytes (tlp_raw_bytes l)) ;;
      call "MWr.ToBytes" ;;;
      Print (hex.EncodeToString (MWr_ToBytes tlp))
    else ret tt.

Definition main (a : Args.t) : M unit :=
  l <- parse_req_args a locals0 ;;
  dispatch a l.

End Program.

End cli.

(** * The vocabulary of the statements *)

(** What a row of the table promises: the value is [(format << 5) | type],
    it is a [uint8], its bits 7-5 are the format and its bits 4-0 the type. *)
Definition row_ok (r : TlpTypeRow) : Prop :=
  row_value r = Z.lor (Z.shiftl (row_format r) 5) (row_type r)
  /\ 0 <= row_value r < 2 ^ 8
  /\ Z.shiftr (row_value r) 5 = row_format r
  /\ Z.land (row_value r) 31 = row_type r.

(** The two values differ in bit 5 and in no other bit. *)
Definition differ_in_bit5_only (a b : Z) : Prop := Z.lxor a b = Z.shiftl 1 5.

(** The packed form of what a string parses to. *)
Definition pack_parsed (str : string) : result string Z :=
  match pcie.FromString str with
  | Ok id => Ok (pcie.ToUint16 id)
  | Err e => Err e
  end.

(** The Format/Type byte of a serialised packet, and its format bits. *)
Definition discriminator (bytes : list byte) : Z := nth 0 bytes 0.
Definition format_bits (bytes : list byte) : Z := Z.shiftr (discriminator bytes) 5.


(** The last [n] bytes. *)
Definition trailing (n : nat) (bytes : list byte) : list byte :=
  skipn (List.length bytes - n) bytes.

(** The device "03:04.4" of the scenarios. *)
Definition did_03_04_4 : pcie.DeviceID := {| pcie.Bus := 3; pcie.Device := 4; pcie.Function := 4 |}.

(** The payload and the address of the scenarios. *)
Definition payload_cc_ff : list byte := [0xcc; 0xcc; 0xcc; 0xcc; 0xff; 0xff; 0xff; 0xff].
Definition addr_18aa : Z := 0x18aaffeeddccbbaa.

(** The command line of the Memory Write scenario. *)
Definition scenario_MEMWR : Args.t :=
  {| Args.encode := true; Args.printtypes := false;
     Args.tlp_raw_bytes_str := ""; Args.data_raw_bytes_str := "cc cc cc cc ff ff ff ff";
     Args.tlp_type := "MEMWR"; Args.device_id_str := "03:04.4"; Args.tag := 137;
     Args.addr_str := "18aaffeeddccbbaa"; Args.length := 8 |}.

(** The same command line for a Memory Read. *)
Definition scenario_MEMRD : Args.t :=
  {| Args.encode := true; Args.printtypes := false;
     Args.tlp_raw_bytes_str := ""; Args.data_raw_bytes_str := "";
     Args.tlp_type := "MEMRD"; Args.device_id_str := "03:04.4"; Args.tag := 137;
     Args.addr_str := "18aaffeeddccbbaa"; Args.length := 8 |}.

(** An encoding run that selects a completion, and one that selects a
    configuration write. *)
Definition encode_CPL : Args.t :=
  {| Args.encode := true; Args.printtypes := false;
     Args.tlp_raw_bytes_str := ""; Args.data_raw_bytes_str := "";
     Args.tlp_type := "CPL"; Args.device_id_str := "03:04.4"; Args.tag := 137;
     Args.addr_str := "18aaffeeddccbbaa"; Args.length := 8 |}.

Definition encode_CFGWR : Args.t :=
  {| Args.encode := true; Args.printtypes := false;
     Args.tlp_raw_bytes_str := ""; Args.data_raw_bytes_str := "";
     Args.tlp_type := "CFGWR"; Args.device_id_str := "03:04.4"; Args.tag := 137;
     Args.addr_str := "18aaffeeddccbbaa"; Args.length := 8 |}.

(** A decoding run on a buffer of two bytes, as a configuration write. *)
Definition decode_CFGWR_2_bytes : Args.t :=
  {| Args.encode := false; Args.printtypes := false;
     Args.tlp_raw_bytes_str := "44 00"; Args.data_raw_bytes_str := "";
     Args.tlp_type := "CFGWR"; Args.device_id_str := ""; Args.tag := 0;
     Args.addr_str := ""; Args.length := 0 |}.

(** The Memory Read of the README, [20000002032489ff18aaffeeddccbba8]. *)
Definition readme_MRd_bytes : list byte :=
  [0x20; 0x00; 0x00; 0x02; 0x03; 0x24; 0x89; 0xff;
   0x18; 0xaa; 0xff; 0xee; 0xdd; 0xcc; 0xbb; 0xa8].

(** The three cases of the [switch], told apart once and for all. *)
Inductive candidate (t : string) : Type :=
| is_MEMRD (e : t = "MEMRD")
| is_MEMWR (e : t = "MEMWR")
| is_CPL (e : t = "CPL")
| no_case (n1 : String.eqb t "MEMRD" = false) (n2 : String.eqb t "MEMWR" = false)
    (n3 : String.eqb t "CPL" = false).

(** A value a Go [byte] can hold. *)
Definition byte_range (b : Z) : Prop := 0 <= b < 2 ^ 8.

(** The banner of decode mode. *)
Definition banner : string := "Parsing Decode Args" +++ nl.

(** The candidates decode mode hands to [try_decode]. *)
Definition decode_types (tlp_type : string) : list string :=
  if String.eqb tlp_type "" then all_tlp_types else [tlp_type].

(** The world after one more string on standard output. *)
Definition printed (w : world) (s : string) : world :=
  {| stdout := stdout w ++ [s]; calls := calls w |}.

(** Two command lines that give an encoding Memory Read the same device ID,
    address, tag byte and 32-bit length. *)
Definition same_MEMRD_request (a a' : Args.t) : Prop :=
  Args.device_id_str a = Args.device_id_str a'
  /\ Args.addr_str a = Args.addr_str a'
  /\ Args.tag a mod 2 ^ 8 = Args.tag a' mod 2 ^ 8
  /\ Args.length a mod 2 ^ 32 = Args.length a' mod 2 ^ 32.

(** Two command lines that give an encoding Memory Write the same payload,
    device ID and address. *)
Definition same_MEMWR_request (a a' : Args.t) : Prop :=
  strings.RemoveSpaces (Args.data_raw_bytes_str a)
    = strings.RemoveSpaces (Args.data_raw_bytes_str a')
  /\ Args.device_id_str a = Args.device_id_str a'
  /\ Args.addr_str a = Args.addr_str a'.

(** A decoding run on text that is no hexadecimal dump. *)
Definition decode_bad_hex : Args.t :=
  {| Args.encode := false; Args.printtypes := false;
     Args.tlp_raw_bytes_str := "20 0g"; Args.data_raw_bytes_str := "";
     Args.tlp_type := "MEMRD"; Args.device_id_str := ""; Args.tag := 0;
     Args.addr_str := ""; Args.length := 0 |}.

(** A decoding run on the Memory Read of the README, as a Memory Read. *)
Definition decode_readme_MRd_as_MEMRD : Args.t :=
  {| Args.encode := false; Args.printtypes := false;
     Args.tlp_raw_bytes_str := "20000002032489ff18aaffeeddccbba8";
     Args.data_raw_bytes_str := ""; Args.tlp_type := "MEMRD"; Args.device_id_str := "";
     Args.tag := 0; Args.addr_str := ""; Args.length := 0 |}.

(** A decoding run of a Memory Read on a buffer of two bytes. *)
Definition decode_MEMRD_2_bytes : Args.t :=
  {| Args.encode := false; Args.printtypes := false;
     Args.tlp_raw_bytes_str := "20 00"; Args.data_raw_bytes_str := "";
     Args.tlp_type := "MEMRD"; Args.device_id_str := ""; Args.tag := 0;
     Args.addr_str := ""; Args.length := 0 |}.

(** The Memory Read scenario with the tag and the length given modulo the
    width of their parameters, and a payload no Memory Read looks at. *)
Definition scenario_MEMRD_wrapped : Args.t :=
  {| Args.encode := true; Args.printtypes := false;
     Args.tlp_raw_bytes_str := "zz"; Args.data_raw_bytes_str := "not hex";
     Args.tlp_type := "MEMRD"; Args.device_id_str := "03:04.4"; Args.tag := 137 + 256;
     Args.addr_str := "18aaffeeddccbbaa"; Args.length := 8 - 2 ^ 32 |}.

(** The Memory Write scenario with another tag and length, the payload
    written without spaces. *)
Definition scenario_MEMWR_other_tag : Args.t :=
  {| Args.encode := true; Args.printtypes := false;
     Args.tlp_raw_bytes_str := "zz"; Args.data_raw_bytes_str := "ccccccccffffffff";
     Args.tlp_type := "MEMWR"; Args.device_id_str := "03:04.4"; Args.tag := 7;
     Args.addr_str := "18aaffeeddccbbaa"; Args.length := 4096 |}.

(** A run that asks for the type table, and for an encoding no switch has. *)
Definition printtypes_and_encode_CPL : Args.t :=
  {| Args.encode := true; Args.printtypes := true;
     Args.tlp_raw_bytes_str := ""; Args.data_raw_bytes_str := "";
     Args.tlp_type := "CPL"; Args.device_id_str := ""; Args.tag := 0;
     Args.addr_str := ""; Args.length := 0 |}.

(** * Properties *)

(** ** The Format/Type table *)

Lemma differ_in_bit5_only_spec (a b : Z) :
  differ_in_bit5_only a b ->
  forall i, 0 <= i -> (Z.testbit a i <> Z.testbit b i <-> i = 5).
Proof.
  unfold differ_in_bit5_only. intros H i Hi.
  assert (Hx : Z.testbit (Z.lxor a b) i = Z.testbit (Z.shiftl 1 5) i) by now rewrite H.
  rewrite Z.lxor_spec in Hx.
  assert (Hb : Z.testbit (Z.shiftl 1 5) i = (i =? 5)).
  { change (Z.shiftl 1 5) with (2 ^ 5). destruct (Z.eqb_spec i 5) as [->|Hn].
    - apply Z.pow2_bits_true. lia.
    - apply Z.pow2_bits_false. lia. }
  rewrite Hb in Hx.
  destruct (Z.eqb_spec i 5) as [->|Hn].
  - split; [reflexivity|]. intros _.
    destruct (Z.testbit a 5), (Z.testbit b 5); simpl in Hx; congruence.
  - split; [|contradiction]. intros Hd.
    destruct (Z.testbit a i), (Z.testbit b i); simpl in Hx; congruence.
Qed.

(** C2 (as the code has it): every constant of the table is
    [(format << 5) | type], a byte whose bits 7-5 are the format and whose
    bits 4-0 are the type; MRd3 = 0x00, MRd4 = 0x20, MWr3 = 0x40 (the
    3-dword-with-data format [0b010] shifted), MWr4 = 0x60 = 0x40 | 0x20,
    CplE = 0x0A, CplD = 0x4A; and each 4-dword memory constant differs from
    its 3-dword constant in bit 5 only. *)
Theorem TlpType_table_layout :
  Forall row_ok TlpType_table
  /\ MRd3 = 0x00 /\ MRd4 = 0x20
  /\ MWr3 = 0x40 /\ MWr4 = 0x60 /\ MWr4 = Z.lor 0x40 0x20
  /\ CplE = 0x0A /\ CplD = 0x4A
  /\ differ_in_bit5_only MRd3 MRd4
  /\ differ_in_bit5_only MRdLk3 MRdLk4
  /\ differ_in_bit5_only MWr3 MWr4.
Proof.
  split.
  - unfold TlpType_table.
    repeat (apply Forall_cons; [unfold row_ok; cbn; repeat split; (reflexivity || lia)|]).
    apply Forall_nil.
  - repeat split.
Qed.

(** C2, the value the claim gives for MWr3: the constant is 0x40, not 0x60. *)
Lemma MWr3_is_not_0x60 : MWr3 <> 0x60.
Proof. discriminate. Qed.

Section TryDecode.

Context {lib : PcieLib}.

Lemma print_errs_run (errs : list string) (w : world) :
  print_errs errs w
  = (Ok tt, {| stdout := stdout w ++ map error_line errs; calls := calls w |}).
Proof.
  revert w. induction errs as [|e errs IH]; intros w; simpl.
  - unfold ret. rewrite app_nil_r. now destruct w.
  - unfold bind, Println, Print. rewrite IH. simpl.
    rewrite <- app_assoc. reflexivity.
Qed.

Lemma candidate_cases (t : string) : candidate t.
Proof.
  destruct (String.eqb t "MEMRD") eqn:E1; [apply is_MEMRD; now apply String.eqb_eq|].
  destruct (String.eqb t "MEMWR") eqn:E2; [apply is_MEMWR; now apply String.eqb_eq|].
  destruct (String.eqb t "CPL") eqn:E3; [apply is_CPL; now apply String.eqb_eq|].
  now apply no_case.
Qed.

Ltac step_world :=
  unfold bind, call, Print; simpl;
  rewrite <- ?app_assoc; simpl.

Lemma try_decode_loop_all_fail (b : list byte) (types : list string) :
  (forall t, In t types -> forall out, attempt b t <> Some (Ok out)) ->
  forall errs w,
    try_decode_loop errs b types w
    = (Ok tt, {| stdout := stdout w ++ map error_line (errs ++ flat_map (error_of b) types);
                 calls := calls w ++ flat_map decoder_call types |}).
Proof.
  induction types as [|t rest IH]; intros Hfail errs w.
  - simpl. rewrite print_errs_run, !app_nil_r. reflexivity.
  - assert (Hrest : forall u, In u rest -> forall out, attempt b u <> Some (Ok out))
      by (intros u Hu; apply Hfail; now right).
    specialize (IH Hrest).
    assert (Ht := Hfail t (or_introl eq_refl)).
    destruct (candidate_cases t) as [-> | -> | -> | n1 n2 n3].
    + simpl. unfold error_of, attempt in *. simpl in *.
      destruct (NewMRdFromBytes b) as [tlp|e].
      * exfalso. now apply (Ht (MRd_ToBytes tlp)).
      * step_world. rewrite IH. simpl. rewrite <- !app_assoc. reflexivity.
    + simpl. unfold error_of, attempt in *. simpl in *.
      destruct (NewMWrFromBytes b) as [tlp|e].
      * exfalso. now apply (Ht (MWr_ToBytes tlp)).
      * step_world. rewrite IH. simpl. rewrite <- !app_assoc. reflexivity.
    + simpl. unfold error_of, attempt in *. simpl in *.
      destruct (NewCplFromBytes b) as [tlp|e].
      * exfalso. now apply (Ht (Cpl_ToBytes tlp)).
      * step_world. rewrite IH. simpl. rewrite <- !app_assoc. reflexivity.
    + simpl. rewrite n1, n2, n3. rewrite IH.
      unfold error_of at 2, attempt, decoder_call. rewrite n1, n2, n3. reflexivity.
Qed.

Lemma try_decode_loop_first_success (b : list byte) (pre : list string) (t : string)
    (post : list string) (out : list byte) :
  (forall u, In u pre -> forall o, attempt b u <> Some (Ok o)) ->
  attempt b t = Some (Ok out) ->
  forall errs w,
    try_decode_loop errs b (pre ++ t :: post) w
    = (Ok tt, {| stdout := stdout w ++ [valid_line t out];
                 calls := calls w ++ flat_map decoder_call pre
                            ++ decoder_call t ++ serialiser_call t |}).
Proof.
  intros Hpre Ht.
  induction pre as [|u pre IH]; intros errs w.
  - clear Hpre. simpl app.
    destruct (candidate_cases t) as [-> | -> | -> | n1 n2 n3];
      unfold attempt in Ht; simpl in Ht.
    + simpl. destruct (NewMRdFromBytes b) as [tlp|e]; [|discriminate].
      injection Ht as <-. step_world. reflexivity.
    + simpl. destruct (NewMWrFromBytes b) as [tlp|e]; [|discriminate].
      injection Ht as <-. step_world. reflexivity.
    + simpl. destruct (NewCplFromBytes b) as [tlp|e]; [|discriminate].
      injection Ht as <-. step_world. reflexivity.
    + rewrite n1, n2, n3 in Ht. discriminate.
  - assert (Hrest : forall v, In v pre -> forall o, attempt b v <> Some (Ok o))
      by (intros v Hv; apply Hpre; now right).
    specialize (IH Hrest).
    assert (Hu := Hpre u (or_introl eq_refl)).
    destruct (candidate_cases u) as [-> | -> | -> | n1 n2 n3].
    + simpl. unfold attempt in Hu. simpl in Hu.
      destruct (NewMRdFromBytes b) as [tlp|e].
      * exfalso. now apply (Hu (MRd_ToBytes tlp)).
      * step_world. rewrite IH. simpl. rewrite <- !app_assoc. reflexivity.
    + simpl. unfold attempt in Hu. simpl in Hu.
      destruct (NewMWrFromBytes b) as [tlp|e].
      * exfalso. now apply (Hu (MWr_ToBytes tlp)).
      * step_world. rewrite IH. simpl. rewrite <- !app_assoc. reflexivity.
    + simpl. unfold attempt in Hu. simpl in Hu.
      destruct (NewCplFromBytes b) as [tlp|e].
      * exfalso. now apply (Hu (Cpl_ToBytes tlp)).
      * step_world. rewrite IH. simpl. rewrite <- !app_assoc. reflexivity.
    + cbn [app flat_map try_decode_loop]. rewrite n1, n2, n3. rewrite IH.
      replace (decoder_call u) with (@nil string)
        by (unfold decoder_call; now rewrite n1, n2, n3).
      reflexivity.
Qed.

Lemma try_decode_loop_no_case (b : list byte) (t : string) (pre post : list string) :
  attempt b t = None ->
  forall errs w,
    try_decode_loop errs b (pre ++ t :: post) w = try_decode_loop errs b (pre ++ post) w.
Proof.
  intros Ht. induction pre as [|u pre IH]; intros errs w.
  - simpl app. unfold attempt in Ht.
    destruct (candidate_cases t) as [-> | -> | -> | n1 n2 n3];
      try (simpl in Ht; discriminate).
    simpl. now rewrite n1, n2, n3.
  - simpl.
    destruct (String.eqb u "MEMRD").
    { unfold bind, call; simpl. destruct (NewMRdFromBytes b); [reflexivity|apply IH]. }
    destruct (String.eqb u "MEMWR").
    { unfold bind, call; simpl. destruct (NewMWrFromBytes b); [reflexivity|apply IH]. }
    destruct (String.eqb u "CPL").
    { unfold bind, call; simpl. destruct (NewCplFromBytes b); [reflexivity|apply IH]. }
    apply IH.
Qed.

(** C10: [try_decode] takes the candidates in list order and returns at the
    first whose decoder succeeds.  When no candidate of [pre] is decoded and
    [t] is, with re-encoded bytes [out], a run on [pre ++ t :: post] writes
    the one line of that packet and nothing else (no collected error), and
    the calls it made are the decoders of [pre] in order, then the decoder
    and the serialiser of [t]: nothing of [post] is attempted, whatever it
    holds. *)
Theorem try_decode_first_success (b : list byte) (pre : list string) (t : string)
    (post : list string) (out : list byte) (w : world) :
  (forall u, In u pre -> forall o, attempt b u <> Some (Ok o)) ->
  attempt b t = Some (Ok out) ->
  try_decode b (pre ++ t :: post) w
  = (Ok tt, {| stdout := stdout w ++ [valid_line t out];
               calls := calls w ++ flat_map decoder_call pre
                          ++ decoder_call t ++ serialiser_call t |}).
Proof.
  intros Hpre Ht. unfold try_decode.
  now apply try_decode_loop_first_success.
Qed.

(** C1: the candidate "CFGWR" of the default list has no case in the [switch]
    of [try_decode]: decoding as "CFGWR" alone writes nothing and calls
    nothing, wherever it stands in a list the run is that of the list
    without it, and the default list behaves as its first three
    candidates. *)
Theorem try_decode_skips_CFGWR (b : list byte) (w : world) :
  try_decode b ["CFGWR"] w = (Ok tt, w)
  /\ (forall pre post,
        try_decode b (pre ++ "CFGWR" :: post) w = try_decode b (pre ++ post) w)
  /\ try_decode b all_tlp_types w = try_decode b ["MEMRD"; "MEMWR"; "CPL"] w.
Proof.
  split; [reflexivity|]. split.
  - intros pre post. unfold try_decode. now apply try_decode_loop_no_case.
  - unfold try_decode, all_tlp_types.
    now apply (try_decode_loop_no_case b "CFGWR" ["MEMRD"; "MEMWR"; "CPL"] []).
Qed.

(** When every candidate fails, [try_decode] writes one line per candidate
    that has a decoder, in list order, and none for the others. *)
Lemma try_decode_all_fail (b : list byte) (types : list string) (w : world) :
  (forall t, In t types -> forall out, attempt b t <> Some (Ok out)) ->
  try_decode b types w
  = (Ok tt, {| stdout := stdout w ++ map error_line (flat_map (error_of b) types);
               calls := calls w ++ flat_map decoder_call types |}).
Proof.
  intros H. unfold try_decode. now rewrite try_decode_loop_all_fail.
Qed.

End TryDecode.

Section Main.

Context {lib : PcieLib}.

(** C9: in encode mode (the branch [if *encode] of a run that does not
    print the type table), every selected type other than "MEMRD" and
    "MEMWR" ("CPL", "CFGWR" and the empty selection alike) panics with
    "Unsupported type specified" in the first [switch]: nothing has been
    written and no function of the package has been called. *)
Theorem main_encode_unsupported_type_panics (a : Args.t) (w : world) :
  Args.encode a = true ->
  Args.printtypes a = false ->
  Args.tlp_type a <> "MEMRD" ->
  Args.tlp_type a <> "MEMWR" ->
  main a w = (Err (PanicString "Unsupported type specified"), w).
Proof.
  intros He Hp Hrd Hwr.
  apply String.eqb_neq in Hrd. apply String.eqb_neq in Hwr.
  unfold main, parse_req_args, bind, panic.
  now rewrite Hp, He, Hwr, Hrd.
Qed.

(** C8: decoding as "CFGWR" reports nothing.  In decode mode with the type
    "CFGWR", whatever the buffer (so also one shorter than a header), [main]
    returns normally after its banner line: no error is written, none is
    raised, and no decoder is called. *)
Theorem main_decode_CFGWR_reports_nothing (a : Args.t) (raw : list byte) (w : world) :
  Args.encode a = false ->
  Args.printtypes a = false ->
  Args.tlp_type a = "CFGWR" ->
  hex.DecodeString (strings.RemoveSpaces (Args.tlp_raw_bytes_str a)) = Ok raw ->
  main a w
  = (Ok tt, {| stdout := stdout w ++ ["Parsing Decode Args" +++ nl]; calls := calls w |}).
Proof.
  intros He Hp Ht Hraw.
  unfold main, parse_req_args, dispatch, bind, Print, or_panic, ret.
  rewrite Hp, He, Hraw, Ht. reflexivity.
Qed.



End Main.

(** ** The package as the specification reads it *)

Section PcieFacts.

Import pcie.

Lemma shiftr_small (x n : Z) : 0 <= x < 2 ^ n -> 0 <= n -> Z.shiftr x n = 0.
Proof.
  intros Hx Hn. rewrite Z.shiftr_div_pow2 by assumption. now apply Z.div_small.
Qed.

Lemma land_shiftl_ones (x n m : Z) : 0 <= m <= n -> Z.land (Z.shiftl x n) (Z.ones m) = 0.
Proof.
  intros H. rewrite Z.land_ones, Z.shiftl_mul_pow2 by lia.
  replace n with ((n - m) + m) by lia.
  rewrite Z.pow_add_r, Z.mul_assoc by lia.
  apply Z.mod_mul. apply Z.pow_nonzero; lia.
Qed.

Lemma land_small_ones (x m : Z) : 0 <= x < 2 ^ m -> 0 <= m -> Z.land x (Z.ones m) = x.
Proof.
  intros Hx Hm. rewrite Z.land_ones by assumption. now apply Z.mod_small.
Qed.

(** [unpack (pack id) = id] on the three ranges. *)
Lemma FromUint16_ToUint16 (id : DeviceID) :
  DeviceID_valid id -> FromUint16 (ToUint16 id) = id.
Proof.
  destruct id as [b d f]. unfold DeviceID_valid, FromUint16, ToUint16.
  cbn [Bus Device Function].
  intros (Hb & Hd & Hf). f_equal.
  - rewrite !Z.shiftr_lor.
    rewrite Z.shiftr_shiftl_l, Z.shiftr_shiftl_r by lia. simpl Z.sub.
    rewrite Z.shiftl_0_r, (@shiftr_small d 5), (@shiftr_small f 8) by (simpl; lia).
    now rewrite !Z.lor_0_r.
  - rewrite !Z.shiftr_lor.
    rewrite !Z.shiftr_shiftl_l by lia. simpl Z.sub.
    rewrite Z.shiftl_0_r, (@shiftr_small f 3) by (simpl; lia).
    rewrite Z.lor_0_r. change 31 with (Z.ones 5).
    rewrite Z.land_lor_distr_l, land_shiftl_ones, land_small_ones by (simpl; lia).
    apply Z.lor_0_l.
  - change 7 with (Z.ones 3).
    rewrite !Z.land_lor_distr_l, !land_shiftl_ones, land_small_ones by (simpl; lia).
    reflexivity.
Qed.

Lemma DeviceID_validb_spec (id : DeviceID) :
  DeviceID_validb id = true <-> DeviceID_valid id.
Proof.
  unfold DeviceID_validb, DeviceID_valid.
  rewrite !andb_true_iff, !Z.leb_le. tauto.
Qed.

(** A string that parses, parses to a device ID within the ranges. *)
Lemma FromString_valid (str : string) (id : DeviceID) :
  FromString str = Ok id -> DeviceID_valid id.
Proof.
  unfold FromString.
  destruct (cut ":" str) as [[bus rest]|]; [|discriminate].
  destruct (cut "." rest) as [[dev fn]|]; [|discriminate].
  destruct (hexnum bus) as [b|]; [|discriminate].
  destruct (hexnum dev) as [d|]; [|discriminate].
  destruct (hexnum fn) as [f|]; [|discriminate].
  destruct (DeviceID_validb _) eqn:Hv; [|discriminate].
  intros [= <-]. now apply DeviceID_validb_spec.
Qed.

(** C7: packing and unpacking a device ID are inverse on bus 0-255, device
    0-31, function 0-7: [unpack (pack id) = id]; and a string that parses to
    [id] packs, through its parse, to the packed form of [id] (such an [id] is
    always within the ranges, so it is unpacked from that form again). *)
Theorem DeviceID_pack_unpack_parse (id : DeviceID) :
  DeviceID_valid id ->
  FromUint16 (ToUint16 id) = id
  /\ forall str, FromString str = Ok id ->
       pack_parsed str = Ok (ToUint16 id)
       /\ FromUint16 (ToUint16 id) = id.
Proof.
  intros Hid. split; [now apply FromUint16_ToUint16|].
  intros str Hstr. split.
  - unfold pack_parsed. now rewrite Hstr.
  - apply FromUint16_ToUint16. now apply (FromString_valid str).
Qed.

Lemma DeviceID_pack_unpack_parse_witness :
  FromString "03:04.4" = Ok did_03_04_4
  /\ ToUint16 did_03_04_4 = 0x0324
  /\ FromUint16 (ToUint16 did_03_04_4) = did_03_04_4
  /\ pack_parsed "03:04.4" = Ok (ToUint16 did_03_04_4).
Proof.
  assert (Hv : DeviceID_valid did_03_04_4) by (unfold DeviceID_valid; simpl; lia).
  destruct (DeviceID_pack_unpack_parse Hv) as [Hu Hs].
  split; [reflexivity|]. split; [reflexivity|]. split; [exact Hu|].
  exact (proj1 (Hs "03:04.4" eq_refl)).
Defined.

End PcieFacts.

(** ** Encoding memory requests *)

Section EncodeFacts.

Import pcie.

Lemma NewMRd_fields (reqID : DeviceID) (tag addr length : Z) (rd : MRd) :
  NewMRd reqID tag addr length = Ok rd ->
  rd = {| MRd_ReqID := reqID; MRd_Tag := 0; MRd_Address := addr;
          MRd_Length := dwords length |}.
Proof.
  unfold NewMRd.
  destruct ((length =? 0) || (4096 <? length)); [discriminate|].
  destruct ((addr <? 0) || (2 ^ 64 <=? addr)); [discriminate|].
  now intros [= <-].
Qed.

Lemma NewMWr_fields (reqID : DeviceID) (addr : Z) (data : list byte) (wr : MWr) :
  NewMWr reqID addr data = Ok wr ->
  wr = {| MWr_ReqID := reqID; MWr_Tag := 0; MWr_Address := addr; MWr_Data := data |}.
Proof.
  unfold NewMWr.
  destruct ((Z.of_nat (List.length data) =? 0) || (4096 <? Z.of_nat (List.length data)));
    [discriminate|].
  destruct ((addr <? 0) || (2 ^ 64 <=? addr)); [discriminate|].
  now intros [= <-].
Qed.

Lemma discriminator_request_header (with_data : bool) (reqID : DeviceID)
    (tag addr length_dw : Z) (payload : list byte) :
  discriminator (request_header with_data reqID tag addr length_dw ++ payload)
  = match with_data, wide addr with
    | false, false => MRd3
    | false, true => MRd4
    | true, false => MWr3
    | true, true => MWr4
    end.
Proof.
  unfold discriminator, request_header. destruct with_data, (wide addr); reflexivity.
Qed.


(** C4: an encoded Memory Read or Memory Write whose address is at most
    0xFFFFFFFF starts with the 3-dword discriminator (MRd3, MWr3: format bits
    fmt3DWNoData, fmt3DWWithData); one whose address needs more than 32 bits
    starts with the 4-dword discriminator (MRd4, MWr4: format bits
    fmt4DWNoData, fmt4DWWithData). *)
Theorem address_width_selects_format (reqID : DeviceID) (tag addr length : Z)
    (data : list byte) :
  (forall rd, NewMRd reqID tag addr length = Ok rd ->
     (addr <= 0xFFFFFFFF ->
        discriminator (MRd_ToBytes rd) = MRd3
        /\ format_bits (MRd_ToBytes rd) = fmt3DWNoData)
     /\ (0xFFFFFFFF < addr ->
        discriminator (MRd_ToBytes rd) = MRd4
        /\ format_bits (MRd_ToBytes rd) = fmt4DWNoData))
  /\ (forall wr, NewMWr reqID addr data = Ok wr ->
     (addr <= 0xFFFFFFFF ->
        discriminator (MWr_ToBytes wr) = MWr3
        /\ format_bits (MWr_ToBytes wr) = fmt3DWWithData)
     /\ (0xFFFFFFFF < addr ->
        discriminator (MWr_ToBytes wr) = MWr4
        /\ format_bits (MWr_ToBytes wr) = fmt4DWWithData)).
Proof.
  split.
  - intros rd Hrd. apply NewMRd_fields in Hrd. subst rd.
    unfold format_bits, MRd_ToBytes. cbn [MRd_ReqID MRd_Tag MRd_Address MRd_Length].
    rewrite <- (app_nil_r (request_header false _ _ _ _)).
    rewrite discriminator_request_header. unfold wide.
    destruct (Z.ltb_spec 0xFFFFFFFF addr); split; intros Ha; try lia; now split.
  - intros wr Hwr. apply NewMWr_fields in Hwr. subst wr.
    unfold format_bits, MWr_ToBytes. cbn [MWr_ReqID MWr_Tag MWr_Address MWr_Data].
    rewrite discriminator_request_header. unfold wide.
    destruct (Z.ltb_spec 0xFFFFFFFF addr); split; intros Ha; try lia; now split.
Qed.

(** Every length from 1 to 4096 bytes and every 64-bit address is encoded:
    the encoders fail on nothing else. *)
Lemma NewMRd_total (reqID : DeviceID) (tag addr length : Z) :
  0 < length <= 4096 -> 0 <= addr < 2 ^ 64 ->
  exists rd, NewMRd reqID tag addr length = Ok rd.
Proof.
  intros Hl Ha. unfold NewMRd.
  destruct (Z.eqb_spec length 0); [lia|].
  destruct (Z.ltb_spec 4096 length); [lia|].
  destruct (Z.ltb_spec addr 0); [lia|].
  destruct (Z.leb_spec (2 ^ 64) addr); [lia|].
  simpl. now eexists.
Qed.

Lemma NewMWr_total (reqID : DeviceID) (addr : Z) (data : list byte) :
  (0 < List.length data <= 4096)%nat -> 0 <= addr < 2 ^ 64 ->
  exists wr, NewMWr reqID addr data = Ok wr.
Proof.
  intros Hl Ha. unfold NewMWr.
  destruct (Z.eqb_spec (Z.of_nat (List.length data)) 0); [lia|].
  destruct (Z.ltb_spec 4096 (Z.of_nat (List.length data))); [lia|].
  destruct (Z.ltb_spec addr 0); [lia|].
  destruct (Z.leb_spec (2 ^ 64) addr); [lia|].
  simpl. now eexists.
Qed.

Lemma address_width_selects_format_witness :
  (exists rd wr,
     NewMRd did_03_04_4 137 0x1000 8 = Ok rd
     /\ NewMWr did_03_04_4 0x1000 payload_cc_ff = Ok wr
     /\ discriminator (MRd_ToBytes rd) = MRd3
     /\ discriminator (MWr_ToBytes wr) = MWr3)
  /\ (exists rd wr,
     NewMRd did_03_04_4 137 addr_18aa 8 = Ok rd
     /\ NewMWr did_03_04_4 addr_18aa payload_cc_ff = Ok wr
     /\ discriminator (MRd_ToBytes rd) = MRd4
     /\ discriminator (MWr_ToBytes wr) = MWr4).
Proof.
  split.
  - destruct (address_width_selects_format did_03_04_4 137 0x1000 8 payload_cc_ff)
      as [Hrd Hwr].
    eexists. eexists. split; [reflexivity|]. split; [reflexivity|]. split.
    + apply (Hrd _ eq_refl). discriminate.
    + apply (Hwr _ eq_refl). discriminate.
  - destruct (address_width_selects_format did_03_04_4 137 addr_18aa 8 payload_cc_ff)
      as [Hrd Hwr].
    eexists. eexists. split; [reflexivity|]. split; [reflexivity|]. split.
    + apply (Hrd _ eq_refl). reflexivity.
    + apply (Hwr _ eq_refl). reflexivity.
Defined.

(** The Memory Write of the README: its arguments are encoded to the byte
    string the README gives for a Memory Write, 24 bytes that end with the
    payload, and the tool writes them as its third string. *)
Example readme_MWr_encodes :
  exists wr,
    NewMWr did_03_04_4 addr_18aa payload_cc_ff = Ok wr
    /\ hex.EncodeToString (MWr_ToBytes wr)
       = "60000002032400ff18aaffeeddccbba8ccccccccffffffff"
    /\ trailing 8 (MWr_ToBytes wr) = payload_cc_ff
    /\ nth_error (stdout (snd (main (lib := pcie.lib) scenario_MEMWR world0))) 2
       = Some (hex.EncodeToString (MWr_ToBytes wr)).
Proof.
  eexists. split; [reflexivity|]. repeat split.
Qed.



End EncodeFacts.

(** ** Runs of the tool on the package of the specification *)

Lemma try_decode_first_success_witness :
  try_decode (lib := pcie.lib) readme_MRd_bytes (["CFGWR"; "MEMWR"] ++ "MEMRD" :: ["CPL"])
    world0
  = (Ok tt,
     {| stdout := ["Valid MEMRD Packet:20000002032489ff18aaffeeddccbba8" +++ nl];
        calls := ["NewMWrFromBytes"; "NewMRdFromBytes"; "MRd.ToBytes"] |}).
Proof.
  assert (Hpre : forall u, In u ["CFGWR"; "MEMWR"] ->
                 forall o, attempt (lib := pcie.lib) readme_MRd_bytes u <> Some (Ok o)).
  { intros u [<-|[<-|[]]] o; vm_compute; discriminate. }
  exact (@try_decode_first_success pcie.lib readme_MRd_bytes ["CFGWR"; "MEMWR"] "MEMRD"
           ["CPL"] readme_MRd_bytes world0 Hpre eq_refl).
Defined.

Lemma main_encode_unsupported_type_panics_witness :
  main (lib := pcie.lib) encode_CPL world0
    = (Err (PanicString "Unsupported type specified"), world0)
  /\ main (lib := pcie.lib) encode_CFGWR world0
    = (Err (PanicString "Unsupported type specified"), world0).
Proof.
  split.
  - apply (@main_encode_unsupported_type_panics pcie.lib encode_CPL world0);
      [reflexivity | reflexivity | discriminate | discriminate].
  - apply (@main_encode_unsupported_type_panics pcie.lib encode_CFGWR world0);
      [reflexivity | reflexivity | discriminate | discriminate].
Defined.

Lemma main_decode_CFGWR_reports_nothing_witness :
  main (lib := pcie.lib) decode_CFGWR_2_bytes world0
  = (Ok tt, {| stdout := ["Parsing Decode Args" +++ nl]; calls := [] |}).
Proof.
  exact (@main_decode_CFGWR_reports_nothing pcie.lib decode_CFGWR_2_bytes [0x44; 0x00] world0
           eq_refl eq_refl eq_refl eq_refl).
Defined.

(** The decoding scenario of the specification: the bytes
    [20 00 00 02 03 24 89 ff 18 aa ff ee dd cc bb a8] read as a Memory Read
    give requester ID 0x0324, tag 0x89, address 0x18aaffeeddccbba8 and a
    length of 2 dwords; encoded with tag 137, the same request is written
    with the tag byte zero. *)
Example readme_MRd_decodes :
  pcie.NewMRdFromBytes readme_MRd_bytes
    = Ok {| pcie.MRd_ReqID := did_03_04_4; pcie.MRd_Tag := 0x89;
            pcie.MRd_Address := 0x18aaffeeddccbba8; pcie.MRd_Length := 2 |}
  /\ pcie.ToUint16 did_03_04_4 = 0x0324
  /\ main (lib := pcie.lib) scenario_MEMRD world0
     = (Ok tt, {| stdout := ["20000002032400ff18aaffeeddccbba8"];
                  calls := ["DeviceID.FromString"; "NewMRd"; "MRd.ToBytes"] |}).
Proof. repeat split. Qed.

(** A buffer shorter than a header, decoded against the default list: one
    line per candidate that has a decoder, none for "CFGWR". *)
Example short_buffer_default_list :
  try_decode (lib := pcie.lib) [0x20; 0x00] all_tlp_types world0
  = (Ok tt,
     {| stdout := ["MEMRD: MalformedHeader" +++ nl; "MEMWR: MalformedHeader" +++ nl;
                   "CPL: MalformedHeader" +++ nl];
        calls := ["NewMRdFromBytes"; "NewMWrFromBytes"; "NewCplFromBytes"] |}).
Proof. reflexivity. Qed.

(** * More of the code *)

(** ** The Format/Type table *)

(** No two constants of the table share a value, and no two a name: a
    Format/Type byte is at most one of the listed types. *)
Theorem TlpType_table_values_distinct :
  NoDup (map row_value TlpType_table) /\ NoDup (map row_name TlpType_table).
Proof.
  split.
  - unfold TlpType_table. cbn [map row_value].
    repeat (apply NoDup_cons; [cbn; intros H; repeat (destruct H as [H|H]; [discriminate H|]); exact H|]).
    apply NoDup_nil.
  - unfold TlpType_table. cbn [map row_name].
    repeat (apply NoDup_cons; [cbn; intros H; repeat (destruct H as [H|H]; [discriminate H|]); exact H|]).
    apply NoDup_nil.
Qed.

(** ** Hexadecimal text and numbers *)

Lemma fromHexChar_range (c : ascii) (d : Z) : fromHexChar c = Some d -> 0 <= d < 16.
Proof.
  unfold fromHexChar.
  set (n := Z.of_nat (nat_of_ascii c)).
  destruct (Z.leb_spec 48 n), (Z.leb_spec n 57); simpl; try (intros [= <-]; lia);
  destruct (Z.leb_spec 97 n), (Z.leb_spec n 102); simpl; try (intros [= <-]; lia);
  destruct (Z.leb_spec 65 n), (Z.leb_spec n 70); simpl; try (intros [= <-]; lia);
  discriminate.
Qed.

Lemma lor_range (x y n : Z) :
  0 <= n -> 0 <= x < 2 ^ n -> 0 <= y < 2 ^ n -> 0 <= Z.lor x y < 2 ^ n.
Proof.
  intros Hn Hx Hy.
  assert (H0 : 0 <= Z.lor x y) by (apply Z.lor_nonneg; lia).
  split; [exact H0|].
  destruct (Z.eq_dec (Z.lor x y) 0) as [E|E].
  - rewrite E. apply Z.pow_pos_nonneg; lia.
  - assert (Hn0 : 0 < n).
    { destruct (Z.eq_dec n 0) as [->|]; [|lia]. exfalso. apply E.
      change (2 ^ 0) with 1 in *. replace x with 0 by lia. replace y with 0 by lia.
      reflexivity. }
    apply Z.log2_lt_pow2; [lia|].
    rewrite Z.log2_lor by lia.
    apply Z.max_lub_lt.
    + destruct (Z.eq_dec x 0) as [->|Hx0]; [simpl; lia|]. apply Z.log2_lt_pow2; lia.
    + destruct (Z.eq_dec y 0) as [->|Hy0]; [simpl; lia|]. apply Z.log2_lt_pow2; lia.
Qed.

Lemma hex_pair_range (a b : Z) :
  0 <= a < 16 -> 0 <= b < 16 -> byte_range (Z.lor (Z.shiftl a 4) b).
Proof.
  intros Ha Hb. unfold byte_range. apply lor_range; [lia| |lia].
  rewrite Z.shiftl_mul_pow2 by lia. change (2 ^ 4) with 16. change (2 ^ 8) with 256. lia.
Qed.

(** Induction on a string two characters at a time, as [hex.DecodeString]
    recurses. *)
Lemma string_pair_ind (P : string -> Prop) :
  P EmptyString ->
  (forall p, P (String p EmptyString)) ->
  (forall p q rest, P rest -> P (String p (String q rest))) ->
  forall s, P s.
Proof.
  intros H0 H1 H2.
  assert (H : forall s, P s /\ forall c, P (String c s)).
  { induction s as [|c s [IHs IHc]].
    - split; [exact H0|exact H1].
    - split; [apply IHc|]. intros c'. apply H2. exact IHs. }
  intros s. apply H.
Qed.

Lemma DecodeString_range (s : string) (bs : list byte) :
  hex.DecodeString s = Ok bs -> Forall byte_range bs.
Proof.
  revert bs. induction s as [|p|p q rest IH] using string_pair_ind; intros bs.
  - intros [= <-]. constructor.
  - simpl. destruct (fromHexChar p); discriminate.
  - simpl.
    destruct (fromHexChar p) as [a|] eqn:Ha; [|discriminate].
    destruct (fromHexChar q) as [b|] eqn:Hb; [|discriminate].
    destruct (hex.DecodeString rest) as [l|e]; [|discriminate].
    intros [= <-]. constructor.
    + apply hex_pair_range; eapply fromHexChar_range; eassumption.
    + now apply IH.
Qed.

Lemma digits16_range (s : string) (n v : Z) :
  0 <= n -> strconv.digits16 n s = Ok v -> 0 <= v /\ (v = n \/ v < 2 ^ 64).
Proof.
  revert n. induction s as [|c r IH]; intros n Hn; cbn [strconv.digits16].
  - intros [= <-]. split; [lia|now left].
  - destruct (fromHexChar c) as [d|] eqn:Hd; [|discriminate].
    apply fromHexChar_range in Hd.
    destruct (Z.leb_spec (2 ^ 60) n) as [Hc|Hc]; [discriminate|].
    intros Hv. apply IH in Hv; [|lia].
    destruct Hv as [Hv0 [->|Hv]]; split; lia.
Qed.

Lemma ParseUint16_64_range (s : string) (v : Z) :
  strconv.ParseUint16_64 s = Ok v -> 0 <= v < 2 ^ 64.
Proof.
  unfold strconv.ParseUint16_64. destruct s as [|c r]; [discriminate|].
  intros Hv. apply digits16_range in Hv; [|lia].
  destruct Hv as [Hv0 [->|Hv]]; split; lia.
Qed.

Lemma hexdigit_fromHexChar (n : Z) : 0 <= n < 16 -> fromHexChar (hexdigit n) = Some n.
Proof.
  intros Hn. rewrite <- (Z2Nat.id n) by lia.
  assert (Hk : (Z.to_nat n < 16)%nat) by lia.
  revert Hk. generalize (Z.to_nat n). intros k Hk.
  do 16 (destruct k as [|k]; [reflexivity|]). lia.
Qed.

Lemma hexdigit_not_space (n : Z) : Ascii.eqb (hexdigit n) " " = false.
Proof.
  unfold hexdigit, hextable. generalize (Z.to_nat n). intros k.
  do 16 (destruct k as [|k]; [reflexivity|]). reflexivity.
Qed.

Lemma nibbles_of_byte (v : Z) :
  byte_range v ->
  0 <= Z.shiftr v 4 < 16 /\ 0 <= Z.land v 15 < 16
  /\ Z.lor (Z.shiftl (Z.shiftr v 4) 4) (Z.land v 15) = v.
Proof.
  unfold byte_range. intros Hv. change (2 ^ 8) with 256 in Hv.
  split; [|split].
  - rewrite Z.shiftr_div_pow2 by lia. change (2 ^ 4) with 16.
    split; [apply Z.div_pos; lia|apply Z.div_lt_upper_bound; lia].
  - change 15 with (Z.ones 4). rewrite Z.land_ones by lia. apply Z.mod_pos_bound. reflexivity.
  - change 15 with (Z.ones 4). rewrite <- Z.ldiff_ones_r by lia. apply Z.lor_ldiff_and.
Qed.

Lemma RemoveSpaces_EncodeToString (bs : list byte) :
  strings.RemoveSpaces (hex.EncodeToString bs) = hex.EncodeToString bs.
Proof.
  induction bs as [|v bs IH]; [reflexivity|].
  cbn [hex.EncodeToString strings.RemoveSpaces].
  now rewrite !hexdigit_not_space, IH.
Qed.

Lemma DecodeString_EncodeToString (bs : list byte) :
  Forall byte_range bs -> hex.DecodeString (hex.EncodeToString bs) = Ok bs.
Proof.
  induction 1 as [|v bs Hv _ IH]; [reflexivity|].
  destruct (nibbles_of_byte Hv) as (Hh & Hl & Hlor).
  cbn [hex.EncodeToString hex.DecodeString].
  now rewrite (hexdigit_fromHexChar Hh), (hexdigit_fromHexChar Hl), IH, Hlor.
Qed.

(** ** [try_decode] on any list *)

Section MoreTryDecode.

Context {lib : PcieLib}.

(** A list of candidates either holds no candidate that decodes, or splits
    at the first one that does. *)
Lemma first_success_split (b : list byte) (types : list string) :
  (forall t, In t types -> forall o, attempt b t <> Some (Ok o))
  \/ exists pre t post out,
       types = (pre ++ t :: post)%list
       /\ (forall u, In u pre -> forall o, attempt b u <> Some (Ok o))
       /\ attempt b t = Some (Ok out).
Proof.
  induction types as [|t rest IH].
  - left. intros t [].
  - assert (Hcons : (forall o, attempt b t <> Some (Ok o)) ->
        (forall u, In u (t :: rest) -> forall o, attempt b u <> Some (Ok o))
        \/ exists pre u post out,
             t :: rest = (pre ++ u :: post)%list
             /\ (forall v, In v pre -> forall o, attempt b v <> Some (Ok o))
             /\ attempt b u = Some (Ok out)).
    { intros Ht. destruct IH as [Hall | (pre & u & post & out & -> & Hpre & Hu)].
      - left. intros u [<-|Hu]; [exact Ht|now apply Hall].
      - right. exists (t :: pre), u, post, out. split; [reflexivity|]. split; [|exact Hu].
        intros v [<-|Hv]; [exact Ht|now apply Hpre]. }
    destruct (attempt b t) as [[out|e]|] eqn:Ht.
    + right. exists [], t, rest, out. split; [reflexivity|]. split; [|exact Ht].
      intros u [].
    + apply Hcons. intros o. discriminate.
    + apply Hcons. intros o. discriminate.
Qed.

(** Over a package whose calls return (the functions of a [PcieLib] give a
    packet or an error; a call that panics is outside the interface),
    whatever the buffer and the list, what [try_decode] has written when it
    returns is either the one line of the first candidate that decodes, or
    the error lines of the candidates, none of which decodes: never a packet
    together with an error, never two packets. *)
Theorem try_decode_packet_or_errors (b : list byte) (types : list string) (w : world) :
  (exists pre t post out,
     types = (pre ++ t :: post)%list
     /\ (forall u, In u pre -> forall o, attempt b u <> Some (Ok o))
     /\ attempt b t = Some (Ok out)
     /\ try_decode b types w
        = (Ok tt, {| stdout := stdout w ++ [valid_line t out];
                     calls := calls w ++ flat_map decoder_call pre
                                ++ decoder_call t ++ serialiser_call t |}))
  \/ ((forall t, In t types -> forall o, attempt b t <> Some (Ok o))
      /\ try_decode b types w
         = (Ok tt, {| stdout := stdout w ++ map error_line (flat_map (error_of b) types);
                      calls := calls w ++ flat_map decoder_call types |})).
Proof.
  unfold try_decode.
  destruct (first_success_split b types)
    as [Hall | (pre & t & post & out & -> & Hpre & Ht)].
  - right. split; [exact Hall|]. now rewrite try_decode_loop_all_fail.
  - left. exists pre, t, post, out. repeat split; try assumption.
    now apply (@try_decode_loop_first_success lib b pre t post out Hpre Ht).
Qed.

(** A candidate whose name is none of "MEMRD", "MEMWR" and "CPL" (the
    comparison is exact, so also one in another case) is passed over
    wherever it stands: the run is that of the list without it. *)
Theorem try_decode_skips_unknown (b : list byte) (t : string) (pre post : list string)
    (w : world) :
  t <> "MEMRD" -> t <> "MEMWR" -> t <> "CPL" ->
  try_decode b (pre ++ t :: post) w = try_decode b (pre ++ post) w.
Proof.
  intros H1 H2 H3. unfold try_decode. apply try_decode_loop_no_case.
  unfold attempt.
  apply String.eqb_neq in H1. apply String.eqb_neq in H2. apply String.eqb_neq in H3.
  now rewrite H1, H2, H3.
Qed.

End MoreTryDecode.

(** ** [main] in decode mode *)

Section MoreMain.

Context {lib : PcieLib}.

Lemma print_all_run (lines : list string) (w : world) :
  print_all lines w = (Ok tt, {| stdout := stdout w ++ lines; calls := calls w |}).
Proof.
  revert w. induction lines as [|s lines IH]; intros w; simpl.
  - unfold ret. rewrite app_nil_r. now destruct w.
  - unfold bind, Print. rewrite IH. simpl. now rewrite <- app_assoc.
Qed.

Lemma main_decode_run (a : Args.t) (raw : list byte) (w : world) :
  Args.encode a = false ->
  Args.printtypes a = false ->
  hex.DecodeString (strings.RemoveSpaces (Args.tlp_raw_bytes_str a)) = Ok raw ->
  main a w = try_decode raw (decode_types (Args.tlp_type a)) (printed w banner).
Proof.
  intros He Hp Hraw.
  unfold main, parse_req_args, dispatch, decode_types, bind, Print, or_panic, ret.
  rewrite Hp, He, Hraw. cbn [tlp_raw_bytes].
  destruct (String.eqb (Args.tlp_type a) ""); reflexivity.
Qed.

(** With [-p] the run writes the type table, one string per constant, and
    returns: no other flag is looked at, so nothing can panic and no function
    of the package is called. *)
Theorem main_printtypes (a : Args.t) (w : world) :
  Args.printtypes a = true ->
  main a w = (Ok tt, {| stdout := stdout w ++ printfmttypes; calls := calls w |})
  /\ List.length printfmttypes = List.length TlpType_table.
Proof.
  intros Hp. split.
  - unfold main. rewrite Hp. apply print_all_run.
  - unfold printfmttypes. apply length_map.
Qed.

(** In decode mode, text that is no hexadecimal dump makes the run panic
    with the error of [hex.DecodeString], after the banner and before any
    decoder is called. *)
Theorem main_decode_invalid_hex (a : Args.t) (e : hex.error) (w : world) :
  Args.encode a = false ->
  Args.printtypes a = false ->
  hex.DecodeString (strings.RemoveSpaces (Args.tlp_raw_bytes_str a)) = Err e ->
  main a w = (Err (PanicHex e), {| stdout := stdout w ++ [banner]; calls := calls w |}).
Proof.
  intros He Hp Hraw.
  unfold main, parse_req_args, bind, Print, or_panic, panic.
  now rewrite Hp, He, Hraw.
Qed.

(** The lower-case hexadecimal dump of a run of bytes, which is what an
    encoding run writes, is read back by a decoding run as those bytes: the
    decoders are handed exactly the bytes dumped. *)
Theorem main_decode_reads_back_dump (a : Args.t) (bs : list byte) (w : world) :
  Args.encode a = false ->
  Args.printtypes a = false ->
  Forall byte_range bs ->
  Args.tlp_raw_bytes_str a = hex.EncodeToString bs ->
  main a w
  = try_decode bs (decode_types (Args.tlp_type a))
      {| stdout := stdout w ++ [banner]; calls := calls w |}.
Proof.
  intros He Hp Hbs Hstr.
  apply main_decode_run; try assumption.
  rewrite Hstr, RemoveSpaces_EncodeToString. now apply DecodeString_EncodeToString.
Qed.

(** ** [main] in encode mode *)

(** An encoding run that panics has written nothing: the packet and the
    lines around it appear only once every argument has been read and the
    encoder has returned a packet. *)
Theorem main_encode_panic_writes_nothing (a : Args.t) (w w' : world) (p : panic_value) :
  Args.encode a = true ->
  Args.printtypes a = false ->
  main a w = (Err p, w') ->
  stdout w' = stdout w.
Proof.
  intros He Hp.
  unfold main, parse_req_args, parse_MEMRD, dispatch, bind, call, Print, or_panic, ret, panic.
  rewrite Hp, He.
  destruct (String.eqb (Args.tlp_type a) "MEMWR") eqn:Hwr.
  - apply String.eqb_eq in Hwr. rewrite Hwr. cbn [String.eqb Ascii.eqb Bool.eqb].
    destruct (hex.DecodeString _); [|now intros [= _ <-]].
    destruct (DeviceID_FromString _); [|now intros [= _ <-]].
    destruct (strconv.ParseUint16_64 _); [|now intros [= _ <-]].
    cbn [did addr data_raw_bytes stdout calls].
    destruct (NewMWr _ _ _); [discriminate|now intros [= _ <-]].
  - destruct (String.eqb (Args.tlp_type a) "MEMRD") eqn:Hrd; [|now intros [= _ <-]].
    destruct (DeviceID_FromString _); [|now intros [= _ <-]].
    destruct (strconv.ParseUint16_64 _); [|now intros [= _ <-]].
    cbn [did addr data_raw_bytes stdout calls].
    destruct (NewMRd _ _ _ _); [discriminate|now intros [= _ <-]].
Qed.

(** An encoding run that returns has encoded a Memory Read or a Memory
    Write, and nothing else can be encoded: for a Memory Read it has written
    one string, the packet in hexadecimal; for a Memory Write five, the packet
    being the third. *)
Theorem main_encode_returns (a : Args.t) (w w' : world) :
  Args.encode a = true ->
  Args.printtypes a = false ->
  main a w = (Ok tt, w') ->
  (Args.tlp_type a = "MEMRD"
   /\ exists tlp : MRd,
        stdout w' = (stdout w ++ [hex.EncodeToString (MRd_ToBytes tlp)])%list
        /\ calls w' = (calls w ++ ["DeviceID.FromString"; "NewMRd"; "MRd.ToBytes"])%list)
  \/ (Args.tlp_type a = "MEMWR"
      /\ exists tlp : MWr,
           List.length (stdout w') = (List.length (stdout w) + 5)%nat
           /\ nth_error (stdout w') (List.length (stdout w) + 2)
              = Some (hex.EncodeToString (MWr_ToBytes tlp))
           /\ calls w' = (calls w ++ ["DeviceID.FromString"; "NewMWr";
                                       "DeviceID.ToUint16"; "MWr.ToBytes"])%list).
Proof.
  intros He Hp.
  unfold main, parse_req_args, parse_MEMRD, dispatch, bind, call, Print, or_panic, ret, panic.
  rewrite Hp, He.
  destruct (String.eqb (Args.tlp_type a) "MEMWR") eqn:Hwr.
  - apply String.eqb_eq in Hwr. rewrite Hwr. cbn [String.eqb Ascii.eqb Bool.eqb].
    destruct (hex.DecodeString _); [|discriminate].
    destruct (DeviceID_FromString _); [|discriminate].
    destruct (strconv.ParseUint16_64 _); [|discriminate].
    cbn [did addr data_raw_bytes stdout calls].
    destruct (NewMWr _ _ _) as [tlp|]; [|discriminate].
    intros [= <-]. right. split; [reflexivity|]. exists tlp.
    cbn [stdout calls]. rewrite <- !app_assoc. cbn [app].
    split; [rewrite length_app; reflexivity|]. split; [|reflexivity].
    rewrite nth_error_app2 by lia.
    replace (List.length (stdout w) + 2 - List.length (stdout w))%nat with 2%nat by lia.
    reflexivity.
  - destruct (String.eqb (Args.tlp_type a) "MEMRD") eqn:Hrd; [|discriminate].
    apply String.eqb_eq in Hrd.
    destruct (DeviceID_FromString _); [|discriminate].
    destruct (strconv.ParseUint16_64 _); [|discriminate].
    cbn [did addr data_raw_bytes stdout calls].
    destruct (NewMRd _ _ _ _) as [tlp|]; [|discriminate].
    intros [= <-]. left. split; [exact Hrd|]. exists tlp.
    cbn [stdout calls]. rewrite <- !app_assoc. split; reflexivity.
Qed.

(** An encoding Memory Read depends on the flags through the device ID, the
    address, the tag modulo 2^8 and the length modulo 2^32 alone: the payload
    and the bytes flags are not looked at, and a tag or a length beyond its
    parameter's width wraps around. *)
Theorem main_encode_MEMRD_request (a a' : Args.t) (w : world) :
  Args.encode a = true -> Args.encode a' = true ->
  Args.printtypes a = false -> Args.printtypes a' = false ->
  Args.tlp_type a = "MEMRD" -> Args.tlp_type a' = "MEMRD" ->
  same_MEMRD_request a a' ->
  main a w = main a' w.
Proof.
  intros He He' Hp Hp' Ht Ht' (Hd & Ha & Htag & Hlen).
  unfold main, parse_req_args, parse_MEMRD, dispatch, uint8, uint32.
  rewrite He, He', Hp, Hp', Ht, Ht', Hd, Ha, Htag, Hlen. reflexivity.
Qed.

(** An encoding Memory Write depends on the flags through the payload (spaces
    aside), the device ID and the address, and through the tag for its "tag:"
    line alone: two runs that agree on the first three end alike, make the
    same calls and write the same strings everywhere but on that line; the
    length flag is not looked at. *)
Theorem main_encode_MEMWR_request (a a' : Args.t) (w : world) :
  Args.encode a = true -> Args.encode a' = true ->
  Args.printtypes a = false -> Args.printtypes a' = false ->
  Args.tlp_type a = "MEMWR" -> Args.tlp_type a' = "MEMWR" ->
  same_MEMWR_request a a' ->
  fst (main a w) = fst (main a' w)
  /\ calls (snd (main a w)) = calls (snd (main a' w))
  /\ forall i, i <> S (List.length (stdout w)) ->
       nth_error (stdout (snd (main a w))) i = nth_error (stdout (snd (main a' w))) i.
Proof.
  intros He He' Hp Hp' Ht Ht' (Hdata & Hd & Ha).
  unfold main, parse_req_args, parse_MEMRD, dispatch, bind, call, Print, or_panic, ret, panic.
  rewrite He, He', Hp, Hp', Ht, Ht', Hdata, Hd, Ha.
  cbn [String.eqb Ascii.eqb Bool.eqb].
  destruct (hex.DecodeString _); [|repeat split].
  destruct (DeviceID_FromString _); [|repeat split].
  destruct (strconv.ParseUint16_64 _); [|repeat split].
  cbn [did addr data_raw_bytes stdout calls].
  destruct (NewMWr _ _ _); [|repeat split].
  cbn [fst snd stdout calls]. split; [reflexivity|]. split; [reflexivity|].
  intros i Hi. rewrite <- !app_assoc. cbn [app].
  destruct (Nat.lt_ge_cases i (List.length (stdout w))) as [Hlt|Hge].
  - now rewrite !nth_error_app1 by assumption.
  - rewrite !nth_error_app2 by assumption.
    destruct (i - List.length (stdout w))%nat as [|[|k]] eqn:Hk; try reflexivity.
    exfalso. apply Hi. lia.
Qed.

(** What [main] holds after it has read the arguments is within its Go
    types: the address is a [uint64] and the two buffers are bytes, so the
    encoders and the decoders are called with such values only. *)
Theorem parse_req_args_ranges (a : Args.t) (w w' : world) (l : locals) :
  parse_req_args a locals0 w = (Ok l, w') ->
  0 <= addr l < 2 ^ 64
  /\ Forall byte_range (data_raw_bytes l)
  /\ Forall byte_range (tlp_raw_bytes l).
Proof.
  unfold parse_req_args, parse_MEMRD, bind, call, Print, or_panic, ret, panic, locals0.
  destruct (Args.encode a).
  - destruct (String.eqb (Args.tlp_type a) "MEMWR").
    + destruct (hex.DecodeString _) as [data|] eqn:Hdata; [|discriminate].
      destruct (DeviceID_FromString _); [|discriminate].
      destruct (strconv.ParseUint16_64 _) as [v|] eqn:Hv; [|discriminate].
      intros [= <- _]. cbn [addr data_raw_bytes tlp_raw_bytes].
      split; [now apply (ParseUint16_64_range (Args.addr_str a))|].
      split; [now apply (DecodeString_range _ Hdata)|constructor].
    + destruct (String.eqb (Args.tlp_type a) "MEMRD"); [|discriminate].
      destruct (DeviceID_FromString _); [|discriminate].
      destruct (strconv.ParseUint16_64 _) as [v|] eqn:Hv; [|discriminate].
      intros [= <- _]. cbn [addr data_raw_bytes tlp_raw_bytes].
      split; [now apply (ParseUint16_64_range (Args.addr_str a))|].
      split; constructor.
  - destruct (hex.DecodeString _) as [raw|] eqn:Hraw; [|discriminate].
    intros [= <- _]. cbn [addr data_raw_bytes tlp_raw_bytes].
    split; [simpl; lia|]. split; [constructor|now apply (DecodeString_range _ Hraw)].
Qed.

(** ** The earlier program and the later one *)

(** Encoding a Memory Read or a Memory Write over the same package (the
    two programs import different copies of it; [lib] stands for one and the
    same here), the earlier program and the later one run alike: same calls,
    same strings, same panics. *)
Theorem cli_main_encode_agrees (a : Args.t) (w : world) :
  Args.encode a = true ->
  Args.printtypes a = false ->
  Args.tlp_type a = "MEMRD" \/ Args.tlp_type a = "MEMWR" ->
  cli.main a w = main a w.
Proof.
  intros He Hp [Ht|Ht];
    unfold cli.main, main, cli.parse_req_args, parse_req_args, cli.dispatch, dispatch;
    rewrite He, Hp, Ht; reflexivity.
Qed.

(** Decoding as a Memory Read or a Memory Write, both programs call the same
    decoder on the same bytes.  When it returns a packet both write its
    bytes, the later program within a "Valid ... Packet:" line; when it
    fails the earlier program panics with its error, where the later one
    writes the error on a line and returns. *)
Theorem cli_main_decode_or_panic (a : Args.t) (raw : list byte) (w : world) :
  Args.encode a = false ->
  Args.printtypes a = false ->
  Args.tlp_type a = "MEMRD" \/ Args.tlp_type a = "MEMWR" ->
  hex.DecodeString (strings.RemoveSpaces (Args.tlp_raw_bytes_str a)) = Ok raw ->
  match attempt raw (Args.tlp_type a) with
  | Some (Ok out) =>
      cli.main a w
      = (Ok tt, {| stdout := stdout w ++ ["Parsing Decode Args"; hex.EncodeToString out];
                   calls := calls w ++ decoder_call (Args.tlp_type a)
                              ++ serialiser_call (Args.tlp_type a) |})
      /\ main a w
      = (Ok tt, {| stdout := stdout w ++ [banner; valid_line (Args.tlp_type a) out];
                   calls := calls w ++ decoder_call (Args.tlp_type a)
                              ++ serialiser_call (Args.tlp_type a) |})
  | Some (Err e) =>
      cli.main a w
      = (Err (PanicPcie e),
         {| stdout := stdout w ++ ["Parsing Decode Args"];
            calls := calls w ++ decoder_call (Args.tlp_type a) |})
      /\ main a w
      = (Ok tt, {| stdout := stdout w ++ [banner; error_line (Args.tlp_type a +++ ": " +++ e)];
                   calls := calls w ++ decoder_call (Args.tlp_type a) |})
  | None => False
  end.
Proof.
  intros He Hp Ht Hraw.
  unfold cli.main, main, cli.parse_req_args, parse_req_args, cli.dispatch, dispatch,
    try_decode, attempt, bind, call, Print, Println, or_panic, ret, panic.
  rewrite He, Hp, Hraw.
  destruct Ht as [Ht|Ht]; rewrite Ht; cbn.
  - destruct (NewMRdFromBytes raw); cbn;
      unfold bind, call, Print, Println, ret; cbn; rewrite <- ?app_assoc;
      split; reflexivity.
  - destruct (NewMWrFromBytes raw); cbn;
      unfold bind, call, Print, Println, ret; cbn; rewrite <- ?app_assoc;
      split; reflexivity.
Qed.

End MoreMain.

(** ** Such runs on the package of the specification *)

Lemma try_decode_all_fail_witness :
  try_decode (lib := pcie.lib) [0x20; 0x00] all_tlp_types world0
  = (Ok tt,
     {| stdout := ["MEMRD: MalformedHeader" +++ nl; "MEMWR: MalformedHeader" +++ nl;
                   "CPL: MalformedHeader" +++ nl];
        calls := ["NewMRdFromBytes"; "NewMWrFromBytes"; "NewCplFromBytes"] |}).
Proof.
  assert (Hall : forall t, In t all_tlp_types ->
                 forall o, attempt (lib := pcie.lib) [0x20; 0x00] t <> Some (Ok o)).
  { intros t [<-|[<-|[<-|[<-|[]]]]] o; vm_compute; discriminate. }
  exact (@try_decode_all_fail pcie.lib [0x20; 0x00] all_tlp_types world0 Hall).
Defined.

Lemma main_printtypes_witness :
  main (lib := pcie.lib) printtypes_and_encode_CPL world0
    = (Ok tt, {| stdout := printfmttypes; calls := [] |})
  /\ List.length printfmttypes = 21%nat.
Proof.
  exact (@main_printtypes pcie.lib printtypes_and_encode_CPL world0 eq_refl).
Defined.

Lemma main_decode_invalid_hex_witness :
  main (lib := pcie.lib) decode_bad_hex world0
  = (Err (PanicHex (hex.InvalidByteError "g")), {| stdout := [banner]; calls := [] |}).
Proof.
  exact (@main_decode_invalid_hex pcie.lib decode_bad_hex (hex.InvalidByteError "g") world0
           eq_refl eq_refl eq_refl).
Defined.

Lemma main_decode_reads_back_dump_witness :
  main (lib := pcie.lib) decode_readme_MRd_as_MEMRD world0
  = try_decode (lib := pcie.lib) readme_MRd_bytes ["MEMRD"]
      {| stdout := [banner]; calls := [] |}.
Proof.
  assert (Hbs : Forall byte_range readme_MRd_bytes).
  { unfold readme_MRd_bytes, byte_range. repeat (constructor; [simpl; lia|]). constructor. }
  exact (@main_decode_reads_back_dump pcie.lib decode_readme_MRd_as_MEMRD readme_MRd_bytes
           world0 eq_refl eq_refl Hbs eq_refl).
Defined.

Lemma main_encode_panic_writes_nothing_witness :
  main (lib := pcie.lib) encode_CPL world0
    = (Err (PanicString "Unsupported type specified"), world0)
  /\ stdout world0 = stdout world0.
Proof.
  split; [reflexivity|].
  exact (@main_encode_panic_writes_nothing pcie.lib encode_CPL world0 world0
           (PanicString "Unsupported type specified") eq_refl eq_refl eq_refl).
Defined.

Lemma main_encode_MEMRD_request_witness :
  main (lib := pcie.lib) scenario_MEMRD world0
  = main (lib := pcie.lib) scenario_MEMRD_wrapped world0.
Proof.
  apply (@main_encode_MEMRD_request pcie.lib scenario_MEMRD scenario_MEMRD_wrapped world0);
    try reflexivity.
  repeat split.
Defined.

Lemma main_encode_MEMWR_request_witness :
  fst (main (lib := pcie.lib) scenario_MEMWR world0)
    = fst (main (lib := pcie.lib) scenario_MEMWR_other_tag world0)
  /\ calls (snd (main (lib := pcie.lib) scenario_MEMWR world0))
     = calls (snd (main (lib := pcie.lib) scenario_MEMWR_other_tag world0))
  /\ forall i, i <> 1%nat ->
       nth_error (stdout (snd (main (lib := pcie.lib) scenario_MEMWR world0))) i
       = nth_error (stdout (snd (main (lib := pcie.lib) scenario_MEMWR_other_tag world0))) i.
Proof.
  apply (@main_encode_MEMWR_request pcie.lib scenario_MEMWR scenario_MEMWR_other_tag world0);
    try reflexivity.
  repeat split.
Defined.

Lemma parse_req_args_ranges_witness :
  exists l w',
    parse_req_args (lib := pcie.lib) scenario_MEMWR locals0 world0 = (Ok l, w')
    /\ 0 <= addr l < 2 ^ 64
    /\ Forall byte_range (data_raw_bytes l)
    /\ Forall byte_range (tlp_raw_bytes l).
Proof.
  eexists. eexists. split; [vm_compute; reflexivity|].
  exact (@parse_req_args_ranges pcie.lib scenario_MEMWR world0 _ _ eq_refl).
Defined.

Lemma cli_main_encode_agrees_witness :
  cli.main (lib := pcie.lib) scenario_MEMRD world0 = main (lib := pcie.lib) scenario_MEMRD world0
  /\ cli.main (lib := pcie.lib) scenario_MEMWR world0
     = main (lib := pcie.lib) scenario_MEMWR world0.
Proof.
  split.
  - exact (@cli_main_encode_agrees pcie.lib scenario_MEMRD world0 eq_refl eq_refl
             (or_introl eq_refl)).
  - exact (@cli_main_encode_agrees pcie.lib scenario_MEMWR world0 eq_refl eq_refl
             (or_intror eq_refl)).
Defined.

Lemma cli_main_decode_or_panic_witness :
  (cli.main (lib := pcie.lib) decode_MEMRD_2_bytes world0
     = (Err (PanicPcie "MalformedHeader"),
        {| stdout := ["Parsing Decode Args"]; calls := ["NewMRdFromBytes"] |})
   /\ main (lib := pcie.lib) decode_MEMRD_2_bytes world0
     = (Ok tt, {| stdout := [banner; "MEMRD: MalformedHeader" +++ nl];
                  calls := ["NewMRdFromBytes"] |}))
  /\ (cli.main (lib := pcie.lib) decode_readme_MRd_as_MEMRD world0
     = (Ok tt, {| stdout := ["Parsing Decode Args"; "20000002032489ff18aaffeeddccbba8"];
                  calls := ["NewMRdFromBytes"; "MRd.ToBytes"] |})
   /\ main (lib := pcie.lib) decode_readme_MRd_as_MEMRD world0
     = (Ok tt, {| stdout := [banner;
                             "Valid MEMRD Packet:20000002032489ff18aaffeeddccbba8" +++ nl];
                  calls := ["NewMRdFromBytes"; "MRd.ToBytes"] |})).
Proof.
  split.
  - exact (@cli_main_decode_or_panic pcie.lib decode_MEMRD_2_bytes [0x20; 0x00] world0
             eq_refl eq_refl (or_introl eq_refl) eq_refl).
  - exact (@cli_main_decode_or_panic pcie.lib decode_readme_MRd_as_MEMRD readme_MRd_bytes
             world0 eq_refl eq_refl (or_introl eq_refl) eq_refl).
Defined.

Lemma try_decode_skips_unknown_witness :
  try_decode (lib := pcie.lib) readme_MRd_bytes (["memrd"; "MEMWR"] ++ "IORD" :: ["MEMRD"])
    world0
  = try_decode (lib := pcie.lib) readme_MRd_bytes (["memrd"; "MEMWR"] ++ ["MEMRD"]) world0.
Proof.
  apply (@try_decode_skips_unknown pcie.lib readme_MRd_bytes "IORD" ["memrd"; "MEMWR"]
           ["MEMRD"] world0); discriminate.
Defined.

Lemma main_encode_returns_witness :
  main (lib := pcie.lib) scenario_MEMRD world0
    = (Ok tt, {| stdout := ["20000002032400ff18aaffeeddccbba8"];
                 calls := ["DeviceID.FromString"; "NewMRd"; "MRd.ToBytes"] |})
  /\ (Args.tlp_type scenario_MEMRD = "MEMRD" \/ Args.tlp_type scenario_MEMRD = "MEMWR").
Proof.
  split; [reflexivity|].
  destruct (@main_encode_returns pcie.lib scenario_MEMRD world0
              {| stdout := ["20000002032400ff18aaffeeddccbba8"];
                 calls := ["DeviceID.FromString"; "NewMRd"; "MRd.ToBytes"] |}
              eq_refl eq_refl eq_refl) as [[Ht _]|[Ht _]].
  - now left.
  - now right.
Defined.
